(** * DogeCash parser and RPC layer of Blockbook: a shallow embedding

    The development follows the two Go files of the [dogec] package:
    the parser ([DogeCParser]: block and transaction decoding, script
    classification, coin-spend value decoding, chain parameters) and the
    RPC layer ([DogeCRPC]: chain info, superblock height, serial lookup).

    Conventions.
    - Go byte slices are [list byte]; Go strings are [string].
    - Go machine integers are [Z]; where the code does arithmetic the
      wrap-around of the Go type is written out ([wrap_int64], [wrap_int]).
    - A Go [(T, error)] result is a [result T].
    - A run-time panic is the [Panics] branch of [outcome].
    - Calls into the backend node thread an abstract world state. *)

From stdpp Require Import base gmap strings list.
From Stdlib Require Import ZArith Lia Bool.
From Stdlib Require Import Strings.Byte Strings.Ascii.

Open Scope Z_scope.

(** ** Errors, results, panics *)

Inductive error : Type :=
| EOF                                     (* io.EOF *)
| ErrUnexpectedEOF                        (* io.ErrUnexpectedEOF *)
| ErrNegativePosition                     (* bytes.Reader.Seek: negative position *)
| ErrDuplicateNet                         (* chaincfg.ErrDuplicateNet *)
| ErrIndexOutOfRange                      (* run-time error: index out of range *)
| Annotatef (e : error) (msg : string)    (* errors.Annotatef *)
| RPCError (code : Z) (message : string)  (* *bchain.RPCError *)
| OtherError (msg : string).              (* any other library error *)

Inductive result (A : Type) : Type :=
| Ok (a : A)
| Err (e : error).
Arguments Ok {A} a.
Arguments Err {A} e.

Inductive outcome (A : Type) : Type :=
| Returns (a : A)
| Panics (e : error).
Arguments Returns {A} a.
Arguments Panics {A} e.

(** ** Machine integers *)

(** Two's-complement wrap-around of a signed [w]-bit Go integer. *)
Definition wrap_signed (w : Z) (z : Z) : Z :=
  (z + 2 ^ (w - 1)) mod 2 ^ w - 2 ^ (w - 1).

Definition wrap_int32 : Z -> Z := wrap_signed 32.
Definition wrap_int64 : Z -> Z := wrap_signed 64.

(** Go's [int] on the 64-bit platforms Blockbook is built for. *)
Definition int_bits : Z := 64.
Definition wrap_int : Z -> Z := wrap_signed int_bits.
Definition MaxInt : Z := 2 ^ (int_bits - 1) - 1.
Definition MaxUint32 : Z := 4294967295.

Definition wrap_uint32 (z : Z) : Z := z mod 2 ^ 32.

(** Go's [%] truncates towards zero, as [Z.rem] does. *)
Definition go_rem (a b : Z) : Z := Z.rem a b.

(** ** Bytes and hexadecimal strings *)

Definition byte_val (b : byte) : Z := Z.of_N (Byte.to_N b).

Definition byte_of_Z (z : Z) : byte :=
  match Byte.of_N (Z.to_N (z mod 256)) with
  | Some b => b
  | None => x00
  end.

Fixpoint bytes_eqb (a b : list byte) : bool :=
  match a, b with
  | [], [] => true
  | x :: a', y :: b' => Byte.eqb x y && bytes_eqb a' b'
  | _, _ => false
  end.

(** [encoding/hex]: the table of [EncodeToString]. *)
Definition hextable : list ascii := String.list_ascii_of_string "0123456789abcdef".

Definition hexdigit (n : Z) : ascii :=
  nth (Z.to_nat n) hextable "0"%char.

Fixpoint EncodeToString (src : list byte) : string :=
  match src with
  | [] => EmptyString
  | v :: rest =>
      String (hexdigit (Z.shiftr (byte_val v) 4))
        (String (hexdigit (Z.land (byte_val v) 15)) (EncodeToString rest))
  end.

(** [encoding/hex]: value of one hexadecimal character, both cases. *)
Definition fromHexChar (c : ascii) : option Z :=
  let n := Z.of_N (N_of_ascii c) in
  if (48 <=? n) && (n <=? 57) then Some (n - 48)
  else if (97 <=? n) && (n <=? 102) then Some (n - 97 + 10)
  else if (65 <=? n) && (n <=? 70) then Some (n - 65 + 10)
  else None.

(** [hex.DecodeString]: the bytes decoded before the first problem are
    returned together with the error; the callers here drop the error. *)
Fixpoint DecodeString (s : string) : list byte * option error :=
  match s with
  | EmptyString => ([], None)
  | String p EmptyString =>
      match fromHexChar p with
      | Some _ => ([], Some (OtherError "encoding/hex: odd length hex string"))
      | None => ([], Some (OtherError "encoding/hex: invalid byte"))
      end
  | String p (String q rest) =>
      match fromHexChar p, fromHexChar q with
      | Some a, Some b =>
          let '(bs, err) := DecodeString rest in
          (byte_of_Z (Z.lor (Z.shiftl a 4) b) :: bs, err)
      | _, _ => ([], Some (OtherError "encoding/hex: invalid byte"))
      end
  end.

(** [fmt.Sprintf("%02x", c)] for a constant [c] that fits one byte. *)
Definition Sprintf_02x (c : byte) : string := EncodeToString [c].

(** ** [bytes.Reader] *)

Record Reader : Type := mkReader {
  rd_s : list byte;   (* the slice being read *)
  rd_i : Z            (* current reading index, an int64 *)
}.

Definition NewReader (b : list byte) : Reader := mkReader b 0.

(** State threaded through the reads of one [Reader]. *)
Definition RdM (A : Type) : Type := Reader -> A * Reader.

Definition rd_ret {A} (a : A) : RdM A := fun r => (a, r).
Definition rd_bind {A B} (m : RdM A) (k : A -> RdM B) : RdM B :=
  fun r => let '(a, r') := m r in k a r'.
Definition rd_eval {A} (m : RdM A) (r : Reader) : A := fst (m r).

Notation "'rd' x <- m ;; k" := (rd_bind m (fun x => k))
  (at level 10, x name, m at level 99, k at level 200).
Notation "'rd_' m ;; k" := (rd_bind m (fun _ => k))
  (at level 10, m at level 99, k at level 200).

(** [r.Seek(offset, io.SeekCurrent)]: positions past the end are accepted;
    only a negative target is refused, leaving the reader unchanged.
    Offsets here are at most a few hundred bytes beyond the slice length,
    far from the int64 bound. *)
Definition Seek_SeekCurrent (offset : Z) : RdM (result Z) :=
  fun r =>
    let abs := rd_i r + offset in
    if abs <? 0 then (Err ErrNegativePosition, r)
    else (Ok abs, mkReader (rd_s r) abs).

(** [io.ReadFull(r, buf)] with [len(buf) = n] on a [bytes.Reader]: the
    first [Read] copies what is available; when that is short a second
    [Read] reports end of input. *)
Definition ReadFull (n : nat) : RdM (result (list byte)) :=
  fun r =>
    if (n =? 0)%nat then (Ok [], r)
    else if Z.of_nat (length (rd_s r)) <=? rd_i r then (Err EOF, r)
    else
      let avail := drop (Z.to_nat (rd_i r)) (rd_s r) in
      if (length avail <? n)%nat
      then (Err ErrUnexpectedEOF,
            mkReader (rd_s r) (rd_i r + Z.of_nat (length avail)))
      else (Ok (take n avail), mkReader (rd_s r) (rd_i r + Z.of_nat n)).

(** [binary.LittleEndian.Uint32]. *)
Fixpoint le_combine (bs : list byte) : Z :=
  match bs with
  | [] => 0
  | b :: rest => Z.lor (byte_val b) (Z.shiftl (le_combine rest) 8)
  end.

(** Modelled from the spec: the package helper [Uint8] is not part of the
    given sources. The spec reads "1 unsigned byte" and fails on any read
    past the end of the buffer. *)
Definition Uint8 : RdM (result Z) :=
  rd buf <- ReadFull 1 ;;
  match buf with
  | Err e => rd_ret (Err e)
  | Ok bs => rd_ret (Ok (le_combine bs))
  end.

(** Modelled from the spec: the package helper [Uint32] is not part of the
    given sources. The spec reads "4 bytes as an unsigned little-endian
    integer" and fails on any read past the end of the buffer. *)
Definition Uint32_LittleEndian : RdM (result Z) :=
  rd buf <- ReadFull 4 ;;
  match buf with
  | Err e => rd_ret (Err e)
  | Ok bs => rd_ret (Ok (le_combine bs))
  end.

(** ** Constants of the parser *)

Definition MainnetMagic : Z := 0xe9fdc490.
Definition TestnetMagic : Z := 0xba657645.

Definition OP_ZEROCOINMINT : byte := xc1.
Definition OP_ZEROCOINSPEND : byte := xc2.

Definition ZCMINT_LABEL : string := "Zerocoin Mint".
Definition ZCSPEND_LABEL : string := "Zerocoin Spend".
Definition CBASE_LABEL : string := "CoinBase TX".
Definition CSTAKE_LABEL : string := "CoinStake TX".

Definition CBASE_ADDR_INT : byte := xf7.
Definition CSTAKE_ADDR_INT : byte := xf8.

Definition nBlocksPerPeriod : Z := 43200.

(** ** Script predicates *)

(** [signatureScript[0] == opcode], read after a length test that makes
    the index valid. *)
Definition first_byte_is (signatureScript : list byte) (opcode : byte) : bool :=
  match signatureScript with
  | b0 :: _ => Byte.eqb b0 opcode
  | [] => false
  end.

(** Checks if script is OP_ZEROCOINMINT. *)
Definition isZeroCoinMintScript (signatureScript : list byte) : bool :=
  (1 <? length signatureScript)%nat
  && first_byte_is signatureScript OP_ZEROCOINMINT.

(** Checks if script is OP_ZEROCOINSPEND. *)
Definition isZeroCoinSpendScript (signatureScript : list byte) : bool :=
  (100 <=? length signatureScript)%nat
  && first_byte_is signatureScript OP_ZEROCOINSPEND.

(** Checks if script is dummy internal address for Coinbase. *)
Definition isCoinBaseFakeAddr (signatureScript : list byte) : bool :=
  (length signatureScript =? 1)%nat
  && first_byte_is signatureScript CBASE_ADDR_INT.

(** Checks if script is dummy internal address for Stake. *)
Definition isCoinStakeFakeAddr (signatureScript : list byte) : bool :=
  (length signatureScript =? 1)%nat
  && first_byte_is signatureScript CSTAKE_ADDR_INT.

(** ** Coin-spend value decoder *)

Definition GetValueSatFromZerocoinSpend (signatureScript : list byte) : result Z :=
  rd_eval
    (rd_ Seek_SeekCurrent 1 ;;                    (* skip opcode *)
     rd len <- Uint8 ;;                           (* serialized coinspend size *)
     match len with
     | Err e => rd_ret (Err e)
     | Ok len =>
         rd_ Seek_SeekCurrent (wrap_int64 len) ;; (* and skip its bytes *)
         rd denom <- Uint32_LittleEndian ;;       (* denomination *)
         match denom with
         | Err e => rd_ret (Err e)
         | Ok denom => rd_ret (Ok (wrap_int64 (wrap_int64 denom * 100000000)))
         end
     end)
    (NewReader signatureScript).

(** ** Wire types of the baseline codec ([wire], [chainhash]) *)

Module wire.

Module OutPoint.
Record t : Type := mk { Hash : list byte; (* [32]byte *) Index : Z (* uint32 *) }.
End OutPoint.

Module TxIn.
Record t : Type := mk {
  PreviousOutPoint : OutPoint.t;
  SignatureScript : list byte;
  Sequence : Z (* uint32 *)
}.
End TxIn.

Module TxOut.
Record t : Type := mk { Value : Z (* int64 *); PkScript : list byte }.
End TxOut.

Module MsgTx.
Record t : Type := mk {
  Version : Z (* int32 *);
  TxIn : list TxIn.t;
  TxOut : list TxOut.t;
  LockTime : Z (* uint32 *)
}.
End MsgTx.

Module BlockHeader.
Record t : Type := mk {
  Version : Z (* int32 *);
  PrevBlock : list byte;
  MerkleRoot : list byte;
  Timestamp : Z (* seconds since the epoch, read as uint32 *);
  Bits : Z;
  Nonce : Z
}.
End BlockHeader.

End wire.

(** [chainhash.Hash.String]: the bytes reversed, in hexadecimal. *)
Definition Hash_String (h : list byte) : string := EncodeToString (rev h).

Definition zeroHash : list byte := replicate 32 x00.

(** [blockchain.IsCoinBaseTx] of the baseline library: exactly one input,
    whose previous output has the maximal index and the zero hash. *)
Definition IsCoinBaseTx (msgTx : wire.MsgTx.t) : bool :=
  if negb (length (wire.MsgTx.TxIn msgTx) =? 1)%nat then false
  else
    match wire.MsgTx.TxIn msgTx with
    | [] => false
    | in0 :: _ =>
        let prevOut := wire.TxIn.PreviousOutPoint in0 in
        if negb (wire.OutPoint.Index prevOut =? MaxUint32)
           || negb (bytes_eqb (wire.OutPoint.Hash prevOut) zeroHash)
        then false
        else true
    end.

(** ** Decoded types ([bchain]); only the fields the parser touches *)

Module bchain.

Module ScriptSig.
Record t : Type := mk { Hex : string }.
End ScriptSig.

Module Vin.
Record t : Type := mk {
  Coinbase : string;
  Txid : string;
  Vout : Z (* uint32 *);
  ScriptSig : ScriptSig.t;
  Sequence : Z (* uint32 *)
}.
(** The zero value a freshly made slice holds. *)
Definition zero : t := mk "" "" 0 (ScriptSig.mk "") 0.
End Vin.

Module ScriptPubKey.
Record t : Type := mk { Hex : string; Addresses : list string }.
End ScriptPubKey.

Module Vout.
Record t : Type := mk {
  ValueSat : Z (* big.Int *);
  JsonValue : string (* json.Number *);
  N : Z (* uint32 *);
  ScriptPubKey : ScriptPubKey.t
}.
End Vout.

Module Tx.
Record t : Type := mk {
  Hex : string;
  Txid : string;
  Version : Z (* int32 *);
  LockTime : Z (* uint32 *);
  Vin : list Vin.t;
  Vout : list Vout.t;
  Confirmations : Z;
  Time : Z;
  Blocktime : Z
}.
Definition with_Vout (vout : list Vout.t) (tx : t) : t :=
  mk (Hex tx) (Txid tx) (Version tx) (LockTime tx) (Vin tx) vout
     (Confirmations tx) (Time tx) (Blocktime tx).
End Tx.

Module BlockHeader.
Record t : Type := mk { Size : Z (* int *); Time : Z (* int64 *) }.
End BlockHeader.

Module Block.
Record t : Type := mk { BlockHeader : BlockHeader.t; Txs : list Tx.t }.
End Block.

End bchain.

(** ** The parser *)

(** Result triple of an address resolver: labels, "searchable" flag, error. *)
Definition AddressesResult : Type := (list string * bool * option error)%type.

(** [DogeCParser]: what the embedded Bitcoin parser contributes is kept as
    fields, as the Go struct does with its function-valued fields. *)
Record DogeCParser : Type := mkDogeCParser {
  AmountToBigInt : string -> result Z;
  BitcoinOutputScriptToAddressesFunc : list byte -> AddressesResult;
  OutputScriptToAddressesFunc : list byte -> AddressesResult
}.

(** [outputScriptToAddresses] reads only the saved Bitcoin resolver. *)
Definition outputScriptToAddresses_of
    (bitcoinFunc : list byte -> AddressesResult) (script : list byte)
  : AddressesResult :=
  if isZeroCoinSpendScript script then ([ZCSPEND_LABEL], false, None)
  else if isZeroCoinMintScript script then ([ZCMINT_LABEL], false, None)
  else if isCoinBaseFakeAddr script then ([CBASE_LABEL], false, None)
  else if isCoinStakeFakeAddr script then ([CSTAKE_LABEL], false, None)
  else
    let '(rv, s, _) := bitcoinFunc script in
    (rv, s, None).

Definition outputScriptToAddresses (p : DogeCParser) (script : list byte)
  : AddressesResult :=
  outputScriptToAddresses_of (BitcoinOutputScriptToAddressesFunc p) script.

(** [NewDogeCParser]: the Bitcoin resolver is saved and the parser's own
    classifier installed in its place. *)
Definition NewDogeCParser
    (amountToBigInt : string -> result Z)
    (btcOutputScriptToAddresses : list byte -> AddressesResult) : DogeCParser :=
  mkDogeCParser amountToBigInt btcOutputScriptToAddresses
    (outputScriptToAddresses_of btcOutputScriptToAddresses).

(** Checks if a Tx is coinbase (JSON path). *)
Definition isCoinbaseTx (tx : bchain.Tx.t) : bool :=
  (length (bchain.Tx.Vin tx) =? 1)%nat
  && match bchain.Tx.Vin tx with
     | [] => false
     | vin0 :: _ =>
         negb (String.eqb (bchain.Vin.Coinbase vin0) "")
         && (bchain.Vin.Sequence vin0 =? MaxUint32)
     end.

Section TxDecoder.

(** [t.TxHash()] of the baseline codec: the double hash of the
    serialized transaction. *)
Variable TxHash : wire.MsgTx.t -> list byte.

(** [json.Unmarshal] into a [bchain.Tx]. *)
Variable Unmarshal : string -> result bchain.Tx.t.

Variable p : DogeCParser.

(** The loop over the inputs of [TxFromMsgTx]; [break] leaves the
    remaining entries of the pre-sized slice at their zero value. *)
Fixpoint TxFromMsgTx_vin (t : wire.MsgTx.t) (ins : list wire.TxIn.t)
  : list bchain.Vin.t :=
  match ins with
  | [] => []
  | in_ :: rest =>
      if negb (isZeroCoinSpendScript (wire.TxIn.SignatureScript in_))
         && IsCoinBaseTx t
      then
        bchain.Vin.mk (EncodeToString (wire.TxIn.SignatureScript in_)) "" 0
          (bchain.ScriptSig.mk "") (wire.TxIn.Sequence in_)
        :: replicate (length rest) bchain.Vin.zero
      else
        let s := bchain.ScriptSig.mk (EncodeToString (wire.TxIn.SignatureScript in_)) in
        let txid := Hash_String (wire.OutPoint.Hash (wire.TxIn.PreviousOutPoint in_)) in
        bchain.Vin.mk "" txid
          (wire.OutPoint.Index (wire.TxIn.PreviousOutPoint in_)) s
          (wire.TxIn.Sequence in_)
        :: TxFromMsgTx_vin t rest
  end.

(** The condition choosing the sentinel of an empty output script.
    [t.TxIn[0]] is evaluated only after [IsCoinBaseTx], which holds for
    one-input transactions only, so the index is always in range. *)
Definition coinbase_sentinel_cond (t : wire.MsgTx.t) : bool :=
  IsCoinBaseTx t
  && match wire.MsgTx.TxIn t with
     | in0 :: _ => negb (isZeroCoinSpendScript (wire.TxIn.SignatureScript in0))
     | [] => false
     end.

(** The loop over the outputs of [TxFromMsgTx], [i] the running index. *)
Fixpoint TxFromMsgTx_vout (t : wire.MsgTx.t) (parseAddresses : bool)
    (i : nat) (outs : list wire.TxOut.t) : list bchain.Vout.t :=
  match outs with
  | [] => []
  | out :: rest =>
      let addrs :=
        if parseAddresses
        then let '(a, _, _) := OutputScriptToAddressesFunc p (wire.TxOut.PkScript out) in a
        else [] in
      let hex := EncodeToString (wire.TxOut.PkScript out) in
      let hex :=
        if String.eqb hex ""
        then if coinbase_sentinel_cond t
             then Sprintf_02x CBASE_ADDR_INT
             else Sprintf_02x CSTAKE_ADDR_INT
        else hex in
      bchain.Vout.mk (wire.TxOut.Value out) "" (wrap_uint32 (Z.of_nat i))
        (bchain.ScriptPubKey.mk hex addrs)
      :: TxFromMsgTx_vout t parseAddresses (S i) rest
  end.

(** Parses tx and adds handling for OP_ZEROCOINSPEND inputs. *)
Definition TxFromMsgTx (t : wire.MsgTx.t) (parseAddresses : bool) : bchain.Tx.t :=
  let vin := TxFromMsgTx_vin t (wire.MsgTx.TxIn t) in
  let vout := TxFromMsgTx_vout t parseAddresses 0 (wire.MsgTx.TxOut t) in
  bchain.Tx.mk "" (Hash_String (TxHash t)) (wire.MsgTx.Version t)
    (wire.MsgTx.LockTime t) vin vout 0 0 0.

(** One round of the loop of [ParseTxFromJson] over [tx.Vout]: the
    entry is updated in place, through its index. *)
Definition ParseTxFromJson_step (tx : bchain.Tx.t) (i : nat) : result bchain.Tx.t :=
  match bchain.Tx.Vout tx !! i with
  | None => Ok tx
  | Some vout =>
      match AmountToBigInt p (bchain.Vout.JsonValue vout) with
      | Err e => Err e
      | Ok valueSat =>
          (* a nil address slice becomes an empty one: both are [[]] here *)
          let spk := bchain.Vout.ScriptPubKey vout in
          let tx1 :=
            bchain.Tx.with_Vout
              (<[i := bchain.Vout.mk valueSat "" (bchain.Vout.N vout) spk]>
                 (bchain.Tx.Vout tx)) tx in
          let hex :=
            if String.eqb (bchain.ScriptPubKey.Hex spk) ""
            then if isCoinbaseTx tx1
                 then Sprintf_02x CBASE_ADDR_INT
                 else Sprintf_02x CSTAKE_ADDR_INT
            else bchain.ScriptPubKey.Hex spk in
          Ok (bchain.Tx.with_Vout
                (<[i := bchain.Vout.mk valueSat "" (bchain.Vout.N vout)
                          (bchain.ScriptPubKey.mk hex (bchain.ScriptPubKey.Addresses spk))]>
                   (bchain.Tx.Vout tx1)) tx1)
      end
  end.

Fixpoint ParseTxFromJson_loop (tx : bchain.Tx.t) (indices : list nat)
  : result bchain.Tx.t :=
  match indices with
  | [] => Ok tx
  | i :: rest =>
      match ParseTxFromJson_step tx i with
      | Err e => Err e
      | Ok tx' => ParseTxFromJson_loop tx' rest
      end
  end.

(** ParseTxFromJson parses JSON message containing transaction. *)
Definition ParseTxFromJson (msg : string) : result bchain.Tx.t :=
  match Unmarshal msg with
  | Err e => Err e
  | Ok tx => ParseTxFromJson_loop tx (seq 0 (length (bchain.Tx.Vout tx)))
  end.

End TxDecoder.

(** ** Helpers for inputs whose previous output is unknown *)

(** Go's slice indexing [l[i]] with an [int] index. *)
Definition go_index {A} (l : list A) (i : Z) : outcome A :=
  if (i <? 0) || (Z.of_nat (length l) <=? i) then Panics ErrIndexOutOfRange
  else
    match l !! Z.to_nat i with
    | Some a => Returns a
    | None => Panics ErrIndexOutOfRange
    end.

(** Lines written through [glog.Warningf]. *)
Inductive LogLine : Type :=
| Warning_unable_to_convert_denom (txid : string) (input : Z).

(** The returned pair is the value and the warnings logged on the way. *)
Definition GetValueSatForUnknownInput (tx : bchain.Tx.t) (input : Z)
  : outcome (Z * list LogLine) :=
  if Z.of_nat (length (bchain.Tx.Vin tx)) >? input then
    match go_index (bchain.Tx.Vin tx) input with
    | Panics e => Panics e
    | Returns vin =>
        let scriptHex := bchain.ScriptSig.Hex (bchain.Vin.ScriptSig vin) in
        if negb (String.eqb scriptHex "") then
          let '(script, _) := DecodeString scriptHex in
          if isZeroCoinSpendScript script then
            match GetValueSatFromZerocoinSpend script with
            | Err _ =>
                Returns (0, [Warning_unable_to_convert_denom (bchain.Tx.Txid tx) input])
            | Ok valueSat => Returns (valueSat, [])
            end
          else Returns (0, [])
        else Returns (0, [])
    end
  else Returns (0, []).

(** ** Block decoder *)

(** Error-propagating step of a reader computation. *)
Definition rd_try {A B} (m : RdM (result A)) (k : A -> RdM (result B))
  : RdM (result B) :=
  rd x <- m ;;
  match x with
  | Err e => rd_ret (Err e)
  | Ok a => k a
  end.

Notation "'rd?' x <- m ;; k" := (rd_try m (fun x => k))
  (at level 10, x name, m at level 99, k at level 200).

(** [wire.BlockHeader.Deserialize] of the baseline codec: the 80-byte
    header, fields in little-endian order, the first failing read ends it. *)
Definition BlockHeader_Deserialize : RdM (result wire.BlockHeader.t) :=
  rd? version <- ReadFull 4 ;;
  rd? prevBlock <- ReadFull 32 ;;
  rd? merkleRoot <- ReadFull 32 ;;
  rd? timestamp <- ReadFull 4 ;;
  rd? bits <- ReadFull 4 ;;
  rd? nonce <- ReadFull 4 ;;
  rd_ret (Ok (wire.BlockHeader.mk (wrap_int32 (le_combine version))
                prevBlock merkleRoot (le_combine timestamp)
                (le_combine bits) (le_combine nonce))).

Section BlockDecoder.

Variable TxHash : wire.MsgTx.t -> list byte.

(** [utils.DecodeTransactions(r, 0, wire.WitnessEncoding, &w)]: the
    transaction list read from the current position of the reader. *)
Variable DecodeTransactions : RdM (result (list wire.MsgTx.t)).

Variable p : DogeCParser.

(** What [ParseBlock] returns once the header is read and the reader
    stands where the transaction list starts. *)
Definition ParseBlock_body (b : list byte) (h : wire.BlockHeader.t)
  : RdM (result bchain.Block.t) :=
  rd w <- DecodeTransactions ;;
  match w with
  | Err e => rd_ret (Err (Annotatef e "DecodeTransactions"))
  | Ok transactions =>
      let txs := map (fun t => TxFromMsgTx TxHash p t false) transactions in
      rd_ret (Ok (bchain.Block.mk
                    (bchain.BlockHeader.mk (Z.of_nat (length b))
                       (wire.BlockHeader.Timestamp h))
                    txs))
  end.

(** ParseBlock parses raw block to our Block struct. *)
Definition ParseBlock (b : list byte) : result bchain.Block.t :=
  rd_eval
    (rd h <- BlockHeader_Deserialize ;;
     match h with
     | Err e => rd_ret (Err (Annotatef e "Deserialize"))
     | Ok h =>
         rd_ (if (wire.BlockHeader.Version h >? 3) && (wire.BlockHeader.Version h <? 7)
              then
                (* skip past AccumulatorCheckpoint, present in versions 4 to 6 *)
                Seek_SeekCurrent 32
              else rd_ret (Ok 0)) ;;
         ParseBlock_body b h
     end)
    (NewReader b).

End BlockDecoder.

(** ** Chain parameters *)

Module chaincfg.

Record Params : Type := mkParams {
  Name : string;
  Net : Z (* wire.BitcoinNet, a uint32 *);
  PubKeyHashAddrID : list byte;
  ScriptHashAddrID : list byte;
  PrivateKeyID : list byte
}.

(** The Bitcoin parameter sets the package starts from. *)
Definition MainNetParams : Params := mkParams "mainnet" 0xd9b4bef9 [x00] [x05] [x80].
Definition TestNet3Params : Params := mkParams "testnet3" 0x0709110b [x6f] [xc4] [xef].

(** [IsRegistered] and [Register] look at the network magic only. *)
Definition IsRegistered (params : Params) (registeredNets : gset Z) : bool :=
  bool_decide (Net params ∈ registeredNets).

Definition Register (params : Params) (registeredNets : gset Z)
  : option error * gset Z :=
  if bool_decide (Net params ∈ registeredNets)
  then (Some ErrDuplicateNet, registeredNets)
  else (None, {[ Net params ]} ∪ registeredNets).

End chaincfg.

(** The package variables as [init] leaves them. *)
Definition MainNetParams : chaincfg.Params :=
  chaincfg.mkParams (chaincfg.Name chaincfg.MainNetParams) MainnetMagic
    [byte_of_Z 30] [byte_of_Z 19] [byte_of_Z 122].

Definition TestNetParams : chaincfg.Params :=
  chaincfg.mkParams (chaincfg.Name chaincfg.TestNet3Params) TestnetMagic
    [byte_of_Z 139] [byte_of_Z 19] [byte_of_Z 239].

(** GetChainParams contains network parameters for the main DogeC network.
    The registry of the library is threaded through the call. *)
Definition GetChainParams (chain : string) (registeredNets : gset Z)
  : outcome chaincfg.Params * gset Z :=
  let '(err, registeredNets) :=
    if negb (chaincfg.IsRegistered MainNetParams registeredNets) then
      let '(err, registeredNets) := chaincfg.Register MainNetParams registeredNets in
      match err with
      | None => chaincfg.Register TestNetParams registeredNets
      | Some e => (Some e, registeredNets)
      end
    else (None, registeredNets) in
  match err with
  | Some e => (Panics e, registeredNets)
  | None =>
      (Returns (if String.eqb chain "test" then TestNetParams else MainNetParams),
       registeredNets)
  end.

(** ** RPC layer *)

(** GetNextSuperBlock returns the next superblock height after nHeight.
    The arithmetic is that of Go's [int]. *)
Definition GetNextSuperBlock (nHeight : Z) : Z :=
  wrap_int (wrap_int (nHeight - go_rem nHeight nBlocksPerPeriod) + nBlocksPerPeriod).

Module rpc.

(** [*bchain.RPCError] fields of a response. *)
Record RPCErrorObj : Type := mkRPCErrorObj { Code : Z; Message : string }.

Definition as_error (e : RPCErrorObj) : error := RPCError (Code e) (Message e).

(** [bchain.ChainInfo], with the fields this package adds; the type of
    the zerocoin supply is declared outside the given sources. *)
Record ChainInfo (ZCdenoms : Type) : Type := mkChainInfo {
  Chain : string;
  Blocks : Z;
  Headers : Z (* int *);
  MoneySupply : string (* json.Number *);
  ZerocoinSupply : ZCdenoms;
  MasternodeCount : Z (* int *);
  NextSuperBlock : Z (* int *)
}.
Arguments mkChainInfo {ZCdenoms}.
Arguments Chain {ZCdenoms}.
Arguments Blocks {ZCdenoms}.
Arguments Headers {ZCdenoms}.
Arguments MoneySupply {ZCdenoms}.
Arguments ZerocoinSupply {ZCdenoms}.
Arguments MasternodeCount {ZCdenoms}.
Arguments NextSuperBlock {ZCdenoms}.

Record ResGetInfo (ZCdenoms : Type) : Type := mkResGetInfo {
  gi_Error : option RPCErrorObj;
  gi_MoneySupply : string;
  gi_ZerocoinSupply : ZCdenoms
}.
Arguments mkResGetInfo {ZCdenoms}.
Arguments gi_Error {ZCdenoms}.
Arguments gi_MoneySupply {ZCdenoms}.
Arguments gi_ZerocoinSupply {ZCdenoms}.

Record ResGetMasternodeCount : Type := mkResGetMasternodeCount {
  mc_Error : option RPCErrorObj;
  Total : Z;
  Stable : Z;
  Enabled : Z;
  InQueue : Z
}.

Record ResFindSerial : Type := mkResFindSerial {
  fs_Error : option RPCErrorObj;
  Success : bool;
  Txid : string
}.

(** The requests, each with its [method] and parameters. *)
Inductive Cmd : Type :=
| CmdGetInfo (Method : string)
| CmdGetMasternodeCount (Method : string)
| CmdFindSerial (Method : string) (Params : list string).

End rpc.

Section DogeCRPC.

(** State of the backend node and of the connection to it. *)
Variable World : Type.
Variable ZCdenoms : Type.

(** The Bitcoin implementation saved by [NewDogeCRPC]. *)
Variable BitcoinGetChainInfo : World -> result (rpc.ChainInfo ZCdenoms) * World.

(** [b.Call(req, &res)] at each of the three response types: the
    response as filled in, and the transport error. *)
Variable Call_ResGetInfo :
  rpc.Cmd -> World -> rpc.ResGetInfo ZCdenoms * option error * World.
Variable Call_ResGetMasternodeCount :
  rpc.Cmd -> World -> rpc.ResGetMasternodeCount * option error * World.
Variable Call_ResFindSerial :
  rpc.Cmd -> World -> rpc.ResFindSerial * option error * World.

(** GetChainInfo returns information about the connected backend.
    The Go result, a pointer to [bchain.ChainInfo] and an error, is kept
    as a pair, a nil pointer being [None]. *)
Definition GetChainInfo (w : World)
  : option (rpc.ChainInfo ZCdenoms) * option error * World :=
  let '(r, w) := BitcoinGetChainInfo w in
  match r with
  | Err err => (None, Some err, w)
  | Ok rv =>
      let '(resGi, err, w) := Call_ResGetInfo (rpc.CmdGetInfo "getinfo") w in
      match err with
      | Some err => (None, Some err, w)
      | None =>
          match rpc.gi_Error resGi with
          | Some e => (None, Some (rpc.as_error e), w)
          | None =>
              let rv :=
                rpc.mkChainInfo (rpc.Chain rv) (rpc.Blocks rv) (rpc.Headers rv)
                  (rpc.gi_MoneySupply resGi) (rpc.gi_ZerocoinSupply resGi)
                  (rpc.MasternodeCount rv) (rpc.NextSuperBlock rv) in
              let '(resMc, err, w) :=
                Call_ResGetMasternodeCount
                  (rpc.CmdGetMasternodeCount "getmasternodecount") w in
              match err with
              | Some err => (None, Some err, w)
              | None =>
                  match rpc.mc_Error resMc with
                  | Some e => (None, Some (rpc.as_error e), w)
                  | None =>
                      let rv :=
                        rpc.mkChainInfo (rpc.Chain rv) (rpc.Blocks rv) (rpc.Headers rv)
                          (rpc.MoneySupply rv) (rpc.ZerocoinSupply rv)
                          (rpc.Enabled resMc) (rpc.NextSuperBlock rv) in
                      let rv :=
                        rpc.mkChainInfo (rpc.Chain rv) (rpc.Blocks rv) (rpc.Headers rv)
                          (rpc.MoneySupply rv) (rpc.ZerocoinSupply rv)
                          (rpc.MasternodeCount rv)
                          (GetNextSuperBlock (rpc.Headers rv)) in
                      (Some rv, None, w)
                  end
              end
          end
      end
  end.

(** Findzcserial looks a zerocoin serial up through [findserial]; the
    Go result [(string, error)] is kept as a pair. *)
Definition Findzcserial (serialHex : string) (w : World)
  : string * option error * World :=
  let req := rpc.CmdFindSerial "findserial" [serialHex] in
  let '(res, err, w) := Call_ResFindSerial req w in
  match err with
  | Some err => (""%string, Some err, w)
  | None =>
      match rpc.fs_Error res with
      | Some e => (""%string, Some (rpc.as_error e), w)
      | None =>
          if negb (rpc.Success res)
          then ("Serial not found in blockchain"%string, None, w)
          else (rpc.Txid res, None, w)
      end
  end.

End DogeCRPC.

(** ** Further functions of the parser and of the RPC layer *)

(** The address descriptor of an input whose previous output is unknown:
    the bytes of its script, or ten zero bytes. *)
Definition GetAddrDescForUnknownInput (tx : bchain.Tx.t) (input : Z)
  : outcome (list byte) :=
  if Z.of_nat (length (bchain.Tx.Vin tx)) >? input then
    match go_index (bchain.Tx.Vin tx) input with
    | Panics e => Panics e
    | Returns vin =>
        let scriptHex := bchain.ScriptSig.Hex (bchain.Vin.ScriptSig vin) in
        if negb (String.eqb scriptHex "") then
          let '(script, _) := DecodeString scriptHex in
          Returns script
        else Returns (replicate 10 x00)
    end
  else Returns (replicate 10 x00).

(** [tx.Hex = ...] on a decoded transaction. *)
Definition Tx_set_Hex (hex : string) (tx : bchain.Tx.t) : bchain.Tx.t :=
  bchain.Tx.mk hex (bchain.Tx.Txid tx) (bchain.Tx.Version tx) (bchain.Tx.LockTime tx)
    (bchain.Tx.Vin tx) (bchain.Tx.Vout tx) (bchain.Tx.Confirmations tx)
    (bchain.Tx.Time tx) (bchain.Tx.Blocktime tx).

Section TxParser.

Variable TxHash : wire.MsgTx.t -> list byte.

(** [t.Deserialize(r)] of the baseline codec, on a reader. *)
Variable MsgTx_Deserialize : RdM (result wire.MsgTx.t).

Variable p : DogeCParser.

(** ParseTx parses byte array containing transaction and returns Tx struct. *)
Definition ParseTx (b : list byte) : result bchain.Tx.t :=
  match rd_eval MsgTx_Deserialize (NewReader b) with
  | Err err => Err err
  | Ok t =>
      let tx := TxFromMsgTx TxHash p t true in
      Ok (Tx_set_Hex (EncodeToString b) tx)
  end.

End TxParser.

(** The fields of [DogeCRPC] that [Initialize] writes. *)
Record RPCState : Type := mkRPCState {
  Parser : option DogeCParser;
  Testnet : bool;
  Network : string
}.

Section RPCInitialize.

Variable World : Type.

(** [b.GetChainInfoAndInitializeMempool(b)] of the Bitcoin layer: the
    chain name reported by the backend. *)
Variable GetChainInfoAndInitializeMempool : World -> result string * World.

(** What [btc.NewBitcoinParser(params, c)] contributes to the parser: the
    amount conversion and the Bitcoin address resolver. *)
Variable NewBitcoinParser :
  chaincfg.Params -> (string -> result Z) * (list byte -> AddressesResult).

(** Initialize initializes DogeCRPC instance. The returned error is [None]
    on success; the state, the backend and the registry are threaded. *)
Definition Initialize (b : RPCState) (w : World) (registeredNets : gset Z)
  : outcome (option error * RPCState) * World * gset Z :=
  let '(r, w) := GetChainInfoAndInitializeMempool w in
  match r with
  | Err err => (Returns (Some err, b), w, registeredNets)
  | Ok chainName =>
      let '(o, registeredNets) := GetChainParams chainName registeredNets in
      match o with
      | Panics e => (Panics e, w, registeredNets)
      | Returns params =>
          (* always create parser *)
          let btc := NewBitcoinParser params in
          let parser := NewDogeCParser btc.1 btc.2 in
          if chaincfg.Net params =? MainnetMagic
          then (Returns (None, mkRPCState (Some parser) false "livenet"), w, registeredNets)
          else (Returns (None, mkRPCState (Some parser) true "testnet"), w, registeredNets)
      end
  end.

End RPCInitialize.

(** ** Registry states and call sequences of [GetChainParams] *)

(** The registry states in which the testnet magic is never registered
    without the mainnet magic. *)
Definition registry_ok (registeredNets : gset Z) : Prop :=
  TestnetMagic ∈ registeredNets -> MainnetMagic ∈ registeredNets.

(** The outcomes of calling [GetChainParams] once per name, in order. *)
Fixpoint GetChainParams_calls (chains : list string) (registeredNets : gset Z)
  : list (outcome chaincfg.Params) :=
  match chains with
  | [] => []
  | chain :: rest =>
      let '(o, registeredNets) := GetChainParams chain registeredNets in
      o :: GetChainParams_calls rest registeredNets
  end.

(** ** Sample data for concrete runs *)

(** A parser over trivial baseline functions, for concrete runs. *)
Definition sample_parser : DogeCParser :=
  NewDogeCParser (fun _ => Ok 0) (fun _ => ([], false, None)).

(** A coin-spend script of the minimal length. *)
Definition sample_spend_script : list byte := OP_ZEROCOINSPEND :: replicate 99 x00.

Definition sample_null_outpoint : wire.OutPoint.t := wire.OutPoint.mk zeroHash MaxUint32.

(** A wire transaction with one null-outpoint input carrying [script]
    and one output with an empty script. *)
Definition sample_wire_tx (script : list byte) : wire.MsgTx.t :=
  wire.MsgTx.mk 1 [wire.TxIn.mk sample_null_outpoint script MaxUint32]
    [wire.TxOut.mk 0 []] 0.

(** A JSON-decoded transaction whose single input has [coinbase] as its
    coinbase field and [hex] as its script, and one output with an empty
    script. *)
Definition sample_json_tx (coinbase hex : string) : bchain.Tx.t :=
  bchain.Tx.mk "" "" 1 0
    [bchain.Vin.mk coinbase "" 0 (bchain.ScriptSig.mk hex) MaxUint32]
    [bchain.Vout.mk 0 "0" 0 (bchain.ScriptPubKey.mk "" [])] 0 0 0.

(** A baseline decoder that answers with an address and an error. *)
Definition sample_failing_parser : DogeCParser :=
  NewDogeCParser (fun _ => Ok 0)
    (fun _ => (["DAddr"%string], true, Some (OtherError "unknown script"))).

(** A coin-spend script of 100 bytes: proof length 2, denomination 5. *)
Definition sample_valued_spend_script : list byte :=
  [OP_ZEROCOINSPEND; x02; xaa; xbb; x05; x00; x00; x00] ++ replicate 92 x00.

(** A transaction-list decoder for concrete runs: a zero count byte is
    the empty list, anything else is refused. *)
Definition sample_DecodeTransactions : RdM (result (list wire.MsgTx.t)) :=
  rd? count <- ReadFull 1 ;;
  if le_combine count =? 0 then rd_ret (Ok []) else rd_ret (Err (OtherError "count")).

Definition sample_header (version : byte) : list byte :=
  [version; x00; x00; x00] ++ replicate 64 x00 ++ [x01; x00; x00; x00] ++ replicate 8 x00.

(** A version-4 block: header, 32 filler bytes, an empty transaction list. *)
Definition sample_block_v4 : list byte := sample_header x04 ++ replicate 32 xff ++ [x00].

(** A version-7 block: header and an empty transaction list. *)
Definition sample_block_v7 : list byte := sample_header x07 ++ [x00].

(** A backend for concrete runs: the world counts the calls made. *)
Definition sample_BitcoinGetChainInfo (w : nat) : result (rpc.ChainInfo unit) * nat :=
  (Ok (rpc.mkChainInfo "main" 100000 100000 "" tt 0 0), S w).

Definition sample_Call_ResGetInfo (req : rpc.Cmd) (w : nat)
  : rpc.ResGetInfo unit * option error * nat :=
  (rpc.mkResGetInfo None "21000000" tt, None, S w).

Definition sample_Call_ResGetMasternodeCount (req : rpc.Cmd) (w : nat)
  : rpc.ResGetMasternodeCount * option error * nat :=
  (rpc.mkResGetMasternodeCount None 12 11 10 9, None, S w).

(** The serial "00" is unknown to the sample backend, any other is found. *)
Definition sample_Call_ResFindSerial (req : rpc.Cmd) (w : nat)
  : rpc.ResFindSerial * option error * nat :=
  match req with
  | rpc.CmdFindSerial _ ["00"%string] => (rpc.mkResFindSerial None false "", None, S w)
  | _ => (rpc.mkResFindSerial None true "abcd", None, S w)
  end.

(** A payment with two inputs, the second a coin-spend of denomination
    5, and two outputs, the second with an empty script. *)
Definition sample_outpoint : wire.OutPoint.t := wire.OutPoint.mk (replicate 32 x11) 3.

Definition sample_payment_tx : wire.MsgTx.t :=
  wire.MsgTx.mk 1
    [wire.TxIn.mk sample_outpoint [x51] 0;
     wire.TxIn.mk sample_outpoint sample_valued_spend_script 5]
    [wire.TxOut.mk 7 [x76; xa9]; wire.TxOut.mk 0 []] 0.

(** A backend that reports the chain name "test", and a Bitcoin parser
    with trivial functions. *)
Definition sample_GetChainInfoAndInitializeMempool (w : nat) : result string * nat :=
  (Ok "test"%string, S w).

Definition sample_NewBitcoinParser (params : chaincfg.Params)
  : (string -> result Z) * (list byte -> AddressesResult) :=
  (fun _ => Ok 0, fun _ => ([], false, None)).

(** A transaction-list decoder for concrete runs: a count byte 1 is the
    list holding the sample payment, 0 the empty list, anything else is
    refused. *)
Definition sample_DecodeTransactions_payment : RdM (result (list wire.MsgTx.t)) :=
  rd? count <- ReadFull 1 ;;
  if le_combine count =? 1 then rd_ret (Ok [sample_payment_tx])
  else if le_combine count =? 0 then rd_ret (Ok [])
  else rd_ret (Err (OtherError "count")).

(** A version-7 block: header and a transaction list of one. *)
Definition sample_block_v7_payment : list byte := sample_header x07 ++ [x01].

(** * Properties *)

(** ** Basic facts on bytes and machine integers *)

Lemma byte_val_range (b : byte) : 0 <= byte_val b < 256.
Proof.
  unfold byte_val. pose proof (Byte.to_N_bounded b). lia.
Qed.

Lemma lor_shiftl8 (a b : Z) :
  0 <= a < 256 -> 0 <= b -> Z.lor a (Z.shiftl b 8) = a + 256 * b.
Proof.
  intros Ha Hb. symmetry. rewrite Z.shiftl_mul_pow2 by lia.
  replace (256 * b) with (b * 2 ^ 8) by lia.
  apply Z.add_nocarry_lor.
  apply Z.bits_inj'. intros n Hn.
  rewrite Z.land_spec, Z.bits_0.
  destruct (Z.lt_ge_cases n 8) as [Hlt | Hge].
  - rewrite Z.mul_pow2_bits_low by lia. apply andb_false_r.
  - replace (Z.testbit a n) with false; [reflexivity |].
    symmetry. destruct (Z.eq_dec a 0) as [-> | Hne]; [apply Z.bits_0 |].
    apply Z.bits_above_log2; [lia |].
    assert (Z.log2 a < 8); [| lia].
    apply Z.log2_lt_pow2; lia.
Qed.

Lemma le_combine_cons (b : byte) (bs : list byte) :
  0 <= le_combine bs -> le_combine (b :: bs) = byte_val b + 256 * le_combine bs.
Proof.
  intros H. simpl. apply lor_shiftl8; [apply byte_val_range | exact H].
Qed.

Lemma le_combine_range (bs : list byte) :
  0 <= le_combine bs < 2 ^ (8 * Z.of_nat (length bs)).
Proof.
  induction bs as [| b bs IH].
  - simpl. lia.
  - rewrite le_combine_cons by lia.
    pose proof (byte_val_range b).
    replace (8 * Z.of_nat (length (b :: bs))) with (8 + 8 * Z.of_nat (length bs))
      by (simpl length; lia).
    rewrite Z.pow_add_r by lia. change (2 ^ 8) with 256. lia.
Qed.

Lemma le_combine_4 (d0 d1 d2 d3 : byte) :
  le_combine [d0; d1; d2; d3]
  = byte_val d0 + 2 ^ 8 * byte_val d1 + 2 ^ 16 * byte_val d2 + 2 ^ 24 * byte_val d3.
Proof.
  pose proof (proj1 (le_combine_range [d3])) as H3.
  pose proof (proj1 (le_combine_range [d2; d3])) as H2.
  pose proof (proj1 (le_combine_range [d1; d2; d3])) as H1.
  rewrite (le_combine_cons d0), (le_combine_cons d1), (le_combine_cons d2),
    (le_combine_cons d3) by (assumption || (simpl; lia)).
  simpl le_combine. lia.
Qed.

Lemma le_combine_1 (b : byte) : le_combine [b] = byte_val b.
Proof. rewrite le_combine_cons by (simpl; lia). simpl. lia. Qed.

Lemma wrap_int64_small (z : Z) : - 2 ^ 63 <= z < 2 ^ 63 -> wrap_int64 z = z.
Proof.
  intros H. unfold wrap_int64, wrap_signed.
  change (2 ^ (64 - 1)) with (2 ^ 63) in *. rewrite Z.mod_small; lia.
Qed.

(** The product in [GetValueSatFromZerocoinSpend] never overflows int64. *)
Lemma denom_times_1e8_no_overflow (denom : Z) :
  0 <= denom < 2 ^ 32 ->
  wrap_int64 (wrap_int64 denom * 100000000) = denom * 10 ^ 8.
Proof.
  intros H. rewrite (wrap_int64_small denom) by lia.
  rewrite wrap_int64_small; lia.
Qed.

(** ** Reading from a [bytes.Reader] *)

Lemma ReadFull_enough (n : nat) (s : list byte) (i : nat) :
  (0 < n)%nat -> (i + n <= length s)%nat ->
  ReadFull n (mkReader s (Z.of_nat i))
  = (Ok (take n (drop i s)), mkReader s (Z.of_nat i + Z.of_nat n)).
Proof.
  intros Hn Hlen. unfold ReadFull. simpl rd_s. simpl rd_i.
  destruct (Nat.eqb_spec n 0) as [-> | _]; [lia |].
  destruct (Z.leb_spec (Z.of_nat (length s)) (Z.of_nat i)) as [Hle | _]; [lia |].
  rewrite Nat2Z.id.
  destruct (Nat.ltb_spec (length (drop i s)) n) as [Hlt | _].
  - rewrite length_drop in Hlt. lia.
  - reflexivity.
Qed.

Lemma ReadFull_short (n : nat) (s : list byte) (i : Z) :
  (0 < n)%nat -> 0 <= i -> Z.of_nat (length s) < i + Z.of_nat n ->
  exists e r', ReadFull n (mkReader s i) = (Err e, r').
Proof.
  intros Hn Hi Hlen. unfold ReadFull. simpl rd_s. simpl rd_i.
  destruct (Nat.eqb_spec n 0) as [-> | _]; [lia |].
  destruct (Z.leb_spec (Z.of_nat (length s)) i) as [Hle | Hgt]; [eauto |].
  destruct (Nat.ltb_spec (length (drop (Z.to_nat i) s)) n) as [Hlt | Hge]; [eauto |].
  rewrite length_drop in Hge. lia.
Qed.

Lemma first_byte_is_spec (s : list byte) (opcode : byte) :
  first_byte_is s opcode = true <-> s !! 0%nat = Some opcode.
Proof.
  destruct s as [| b0 s']; cbn [first_byte_is].
  - split; discriminate.
  - change ((b0 :: s') !! 0%nat) with (Some b0). split.
    + intros H. f_equal. apply Byte.byte_dec_bl. exact H.
    + intros H. injection H as ->. apply Byte.byte_dec_lb. reflexivity.
Qed.

Lemma isZeroCoinSpendScript_spec (s : list byte) :
  isZeroCoinSpendScript s = true
  <-> (100 <= length s)%nat /\ s !! 0%nat = Some OP_ZEROCOINSPEND.
Proof.
  unfold isZeroCoinSpendScript.
  rewrite andb_true_iff, Nat.leb_le, first_byte_is_spec. reflexivity.
Qed.

(** ** Coin-spend value decoder: the layout and its failures *)

Example GetValueSatFromZerocoinSpend_spec_buffer :
  GetValueSatFromZerocoinSpend [OP_ZEROCOINSPEND; x02; xaa; xbb; x05; x00; x00; x00]
  = Ok (5 * 10 ^ 8).
Proof. reflexivity. Qed.

Example GetValueSatFromZerocoinSpend_truncated :
  GetValueSatFromZerocoinSpend [OP_ZEROCOINSPEND; x02; xaa; xbb; x05; x00]
  = Err ErrUnexpectedEOF.
Proof. reflexivity. Qed.

(** C2. A buffer laid out as opcode, length byte [len], [len] proof bytes
    and four denomination bytes decodes to the little-endian value of
    those four bytes times 10^8 (so the sample buffer of the spec gives
    5 * 10^8); a buffer without the length byte, or with fewer than
    [len + 4] bytes after it, makes the call return an error. *)
Theorem GetValueSatFromZerocoinSpend_layout :
  (forall (op len : byte) (proof rest : list byte) (d0 d1 d2 d3 : byte),
      byte_val len = Z.of_nat (length proof) ->
      GetValueSatFromZerocoinSpend (op :: len :: proof ++ [d0; d1; d2; d3] ++ rest)
      = Ok ((byte_val d0 + 2 ^ 8 * byte_val d1 + 2 ^ 16 * byte_val d2
             + 2 ^ 24 * byte_val d3) * 10 ^ 8))
  /\ GetValueSatFromZerocoinSpend
       [OP_ZEROCOINSPEND; x02; xaa; xbb; x05; x00; x00; x00] = Ok (5 * 10 ^ 8)
  /\ (forall buf : list byte,
        (length buf < 2)%nat ->
        exists e, GetValueSatFromZerocoinSpend buf = Err e)
  /\ (forall (op len : byte) (rest : list byte),
        Z.of_nat (length rest) < byte_val len + 4 ->
        exists e, GetValueSatFromZerocoinSpend (op :: len :: rest) = Err e).
Proof.
  split; [| split; [reflexivity | split]].
  - intros op len proof rest d0 d1 d2 d3 Hlen.
    unfold GetValueSatFromZerocoinSpend, rd_eval, rd_bind, Uint8, Uint32_LittleEndian.
    unfold NewReader, Seek_SeekCurrent at 1. simpl rd_i. simpl rd_s.
    change (0 + 1 <? 0) with false. cbv iota.
    unfold rd_bind.
    rewrite (ReadFull_enough 1 _ 1) by (simpl; lia).
    simpl drop. simpl take. unfold rd_ret.
    rewrite le_combine_1.
    pose proof (byte_val_range len) as Hr.
    rewrite (wrap_int64_small (byte_val len)) by lia.
    unfold Seek_SeekCurrent. simpl rd_i. simpl rd_s.
    destruct (Z.ltb_spec (Z.of_nat 1 + Z.of_nat 1 + byte_val len) 0) as [Hneg | _]; [lia |].
    rewrite Hlen.
    replace (Z.of_nat 1 + Z.of_nat 1 + Z.of_nat (length proof))
      with (Z.of_nat (2 + length proof)) by lia.
    rewrite (ReadFull_enough 4) by (simpl; rewrite ?length_app; simpl; lia).
    match goal with
    | |- context [drop (2 + length proof) (op :: len :: ?l)] =>
        change (drop (2 + length proof) (op :: len :: l)) with (drop (length proof) l)
    end.
    rewrite drop_app_length. simpl take.
    pose proof (le_combine_range [d0; d1; d2; d3]) as Hd.
    change (2 ^ (8 * Z.of_nat (length [d0; d1; d2; d3]))) with (2 ^ 32) in Hd.
    rewrite le_combine_4 in Hd |- *.
    cbn [fst]. rewrite denom_times_1e8_no_overflow by exact Hd.
    reflexivity.
  - intros buf Hlen.
    unfold GetValueSatFromZerocoinSpend, rd_eval, rd_bind, Uint8.
    unfold NewReader, Seek_SeekCurrent at 1. simpl rd_i. simpl rd_s.
    change (0 + 1 <? 0) with false. cbv iota. unfold rd_bind.
    destruct (ReadFull_short 1 buf (0 + 1)) as (e & r' & ->); [lia | lia | lia |].
    simpl. eauto.
  - intros op len rest Hlen.
    unfold GetValueSatFromZerocoinSpend, rd_eval, rd_bind, Uint8, Uint32_LittleEndian.
    unfold NewReader, Seek_SeekCurrent at 1. simpl rd_i. simpl rd_s.
    change (0 + 1 <? 0) with false. cbv iota. unfold rd_bind.
    rewrite (ReadFull_enough 1 _ 1) by (simpl; lia).
    simpl drop. simpl take. unfold rd_ret. rewrite le_combine_1.
    pose proof (byte_val_range len) as Hr.
    rewrite (wrap_int64_small (byte_val len)) by lia.
    unfold Seek_SeekCurrent. simpl rd_i. simpl rd_s.
    destruct (Z.ltb_spec (Z.of_nat 1 + Z.of_nat 1 + byte_val len) 0) as [Hneg | _]; [lia |].
    destruct (ReadFull_short 4 (op :: len :: rest)
                (Z.of_nat 1 + Z.of_nat 1 + byte_val len)) as (e & r' & ->);
      [lia | lia | simpl length; lia |].
    simpl. eauto.
Qed.

Lemma GetValueSatFromZerocoinSpend_layout_witness :
  byte_val x02 = Z.of_nat (length [xaa; xbb])
  /\ GetValueSatFromZerocoinSpend
       (OP_ZEROCOINSPEND :: x02 :: [xaa; xbb] ++ [x05; x00; x00; x00] ++ [])
     = Ok ((byte_val x05 + 2 ^ 8 * byte_val x00 + 2 ^ 16 * byte_val x00
            + 2 ^ 24 * byte_val x00) * 10 ^ 8)
  /\ (length [OP_ZEROCOINSPEND] < 2)%nat
  /\ (exists e, GetValueSatFromZerocoinSpend [OP_ZEROCOINSPEND] = Err e)
  /\ Z.of_nat (length [xaa; xbb; x05]) < byte_val x02 + 4
  /\ (exists e, GetValueSatFromZerocoinSpend
                  (OP_ZEROCOINSPEND :: x02 :: [xaa; xbb; x05]) = Err e).
Proof.
  pose proof GetValueSatFromZerocoinSpend_layout as (Hok & _ & Hshort & Htrunc).
  split; [reflexivity |].
  split; [apply (Hok OP_ZEROCOINSPEND x02 [xaa; xbb] [] x05 x00 x00 x00); reflexivity |].
  split; [simpl; lia |].
  split; [apply Hshort; simpl; lia |].
  split; [vm_compute; reflexivity |].
  apply Htrunc. vm_compute. reflexivity.
Defined.

(** ** Hexadecimal strings *)

Lemma hex_byte_roundtrip (v : byte) :
  exists a b,
    fromHexChar (hexdigit (Z.shiftr (byte_val v) 4)) = Some a
    /\ fromHexChar (hexdigit (Z.land (byte_val v) 15)) = Some b
    /\ byte_of_Z (Z.lor (Z.shiftl a 4) b) = v.
Proof.
  destruct v; (eexists; eexists; split; [reflexivity | split; reflexivity]).
Qed.

Lemma DecodeString_EncodeToString (bs : list byte) :
  DecodeString (EncodeToString bs) = (bs, None).
Proof.
  induction bs as [| v bs IH]; [reflexivity |].
  destruct (hex_byte_roundtrip v) as (a & b & Ha & Hb & Hv).
  cbn [EncodeToString DecodeString]. rewrite Ha, Hb, IH, Hv. reflexivity.
Qed.

Lemma EncodeToString_empty (bs : list byte) :
  EncodeToString bs = ""%string <-> bs = [].
Proof.
  destruct bs; simpl; split; intros H; (reflexivity || discriminate).
Qed.

Example Sprintf_02x_CBASE : Sprintf_02x CBASE_ADDR_INT = "f7"%string.
Proof. reflexivity. Qed.

Example Sprintf_02x_CSTAKE : Sprintf_02x CSTAKE_ADDR_INT = "f8"%string.
Proof. reflexivity. Qed.

(** ** The baseline coinbase predicate *)

Lemma IsCoinBaseTx_one_input (t : wire.MsgTx.t) :
  IsCoinBaseTx t = true -> exists in0, wire.MsgTx.TxIn t = [in0].
Proof.
  unfold IsCoinBaseTx. destruct (wire.MsgTx.TxIn t) as [| in0 [| in1 rest]]; simpl.
  - discriminate.
  - eauto.
  - discriminate.
Qed.

(** ** Inputs of a decoded transaction *)

Section TxProperties.

Variable TxHash : wire.MsgTx.t -> list byte.
Variable p : DogeCParser.

(** C1. When the only input of a wire transaction carries a coin-spend
    script (at least 100 bytes, the first one 0xc2), the decoded input
    is not a coinbase input, whatever the baseline coinbase predicate
    says: its coinbase field is empty and it keeps the previous
    transaction id, the output index, the sequence and the bytes of the
    unlocking script. *)
Theorem TxFromMsgTx_single_spend_input_not_coinbase
    (t : wire.MsgTx.t) (parseAddresses : bool) (in_ : wire.TxIn.t) :
  wire.MsgTx.TxIn t = [in_] ->
  (100 <= length (wire.TxIn.SignatureScript in_))%nat ->
  wire.TxIn.SignatureScript in_ !! 0%nat = Some OP_ZEROCOINSPEND ->
  exists vin,
    bchain.Tx.Vin (TxFromMsgTx TxHash p t parseAddresses) = [vin]
    /\ bchain.Vin.Coinbase vin = ""%string
    /\ bchain.Vin.Txid vin
       = Hash_String (wire.OutPoint.Hash (wire.TxIn.PreviousOutPoint in_))
    /\ bchain.Vin.Vout vin = wire.OutPoint.Index (wire.TxIn.PreviousOutPoint in_)
    /\ bchain.Vin.Sequence vin = wire.TxIn.Sequence in_
    /\ DecodeString (bchain.ScriptSig.Hex (bchain.Vin.ScriptSig vin))
       = (wire.TxIn.SignatureScript in_, None)
    /\ isCoinbaseTx (TxFromMsgTx TxHash p t parseAddresses) = false.
Proof.
  intros Hin Hlen Hop.
  assert (Hspend : isZeroCoinSpendScript (wire.TxIn.SignatureScript in_) = true)
    by (apply isZeroCoinSpendScript_spec; split; assumption).
  eexists. unfold TxFromMsgTx, isCoinbaseTx. cbn [bchain.Tx.Vin].
  rewrite Hin. cbn [TxFromMsgTx_vin]. rewrite Hspend. cbn [negb andb].
  split; [reflexivity |].
  cbn [bchain.Vin.Coinbase bchain.Vin.Txid bchain.Vin.Vout bchain.Vin.Sequence
       bchain.Vin.ScriptSig bchain.ScriptSig.Hex].
  repeat (split; [reflexivity |]).
  split; [apply DecodeString_EncodeToString |].
  reflexivity.
Qed.

End TxProperties.

(** ** Outputs of a decoded transaction: the sentinel scripts *)

Lemma coinbase_sentinel_cond_spec (t : wire.MsgTx.t) :
  coinbase_sentinel_cond t = true
  <-> IsCoinBaseTx t = true
      /\ exists in0, wire.MsgTx.TxIn t = [in0]
                     /\ isZeroCoinSpendScript (wire.TxIn.SignatureScript in0) = false.
Proof.
  unfold coinbase_sentinel_cond. rewrite andb_true_iff. split.
  - intros [Hcb Hns]. split; [exact Hcb |].
    destruct (IsCoinBaseTx_one_input t Hcb) as [in0 Hin].
    exists in0. rewrite Hin in Hns. split; [exact Hin |].
    now apply negb_true_iff.
  - intros [Hcb (in0 & Hin & Hns)]. split; [exact Hcb |].
    rewrite Hin. now apply negb_true_iff.
Qed.

Lemma isCoinbaseTx_spec (tx : bchain.Tx.t) :
  isCoinbaseTx tx = true
  <-> exists vin0, bchain.Tx.Vin tx = [vin0]
                   /\ bchain.Vin.Coinbase vin0 <> ""%string
                   /\ bchain.Vin.Sequence vin0 = MaxUint32.
Proof.
  unfold isCoinbaseTx.
  destruct (bchain.Tx.Vin tx) as [| vin0 [| vin1 rest]]; cbn [length Nat.eqb andb].
  - split; [discriminate | intros (v & H & _); discriminate].
  - rewrite andb_true_iff, negb_true_iff, Z.eqb_eq. split.
    + intros [Hc Hs]. exists vin0. split; [reflexivity |]. split; [| exact Hs].
      intros Heq. apply String.eqb_eq in Heq. congruence.
    + intros (v & Hv & Hc & Hs). injection Hv as <-. split; [| exact Hs].
      destruct (String.eqb_spec (bchain.Vin.Coinbase vin0) ""); congruence.
  - split; [discriminate | intros (v & H & _); discriminate].
Qed.

Lemma isCoinbaseTx_with_Vout (vout : list bchain.Vout.t) (tx : bchain.Tx.t) :
  isCoinbaseTx (bchain.Tx.with_Vout vout tx) = isCoinbaseTx tx.
Proof. reflexivity. Qed.

Section SentinelProperties.

Variable TxHash : wire.MsgTx.t -> list byte.
Variable Unmarshal : string -> result bchain.Tx.t.
Variable p : DogeCParser.

(** The script hex an output gets on the binary path. *)
Lemma TxFromMsgTx_vout_lookup (t : wire.MsgTx.t) (parseAddresses : bool)
    (outs : list wire.TxOut.t) :
  forall (i0 i : nat) (out : wire.TxOut.t),
    outs !! i = Some out ->
    exists vout,
      TxFromMsgTx_vout p t parseAddresses i0 outs !! i = Some vout
      /\ bchain.Vout.ValueSat vout = wire.TxOut.Value out
      /\ bchain.Vout.N vout = wrap_uint32 (Z.of_nat (i0 + i))
      /\ bchain.ScriptPubKey.Hex (bchain.Vout.ScriptPubKey vout)
         = if String.eqb (EncodeToString (wire.TxOut.PkScript out)) ""
           then if coinbase_sentinel_cond t then "f7"%string else "f8"%string
           else EncodeToString (wire.TxOut.PkScript out).
Proof.
  induction outs as [| o outs IH]; intros i0 i out Hout; [discriminate |].
  destruct i as [| i].
  - injection Hout as ->. eexists. split; [reflexivity |].
    cbn [bchain.Vout.ValueSat bchain.Vout.N bchain.Vout.ScriptPubKey
         bchain.ScriptPubKey.Hex].
    rewrite Nat.add_0_r. repeat (split; [reflexivity |]).
    destruct (String.eqb _ ""); [| reflexivity].
    destruct (coinbase_sentinel_cond t); reflexivity.
  - destruct (IH (S i0) i out Hout) as (vout & Hl & Hv & Hn & Hh).
    exists vout. split; [exact Hl |].
    replace (i0 + S i)%nat with (S i0 + i)%nat by lia. auto.
Qed.

(** One round of the JSON loop. *)
Lemma ParseTxFromJson_step_spec (tx tx' : bchain.Tx.t) (i : nat)
    (vout : bchain.Vout.t) :
  bchain.Tx.Vout tx !! i = Some vout ->
  ParseTxFromJson_step p tx i = Ok tx' ->
  bchain.Tx.Vin tx' = bchain.Tx.Vin tx
  /\ exists valueSat vout',
      AmountToBigInt p (bchain.Vout.JsonValue vout) = Ok valueSat
      /\ bchain.Tx.Vout tx' = <[i := vout']> (bchain.Tx.Vout tx)
      /\ bchain.Vout.ValueSat vout' = valueSat
      /\ bchain.ScriptPubKey.Hex (bchain.Vout.ScriptPubKey vout')
         = if String.eqb (bchain.ScriptPubKey.Hex (bchain.Vout.ScriptPubKey vout)) ""
           then if isCoinbaseTx tx then "f7"%string else "f8"%string
           else bchain.ScriptPubKey.Hex (bchain.Vout.ScriptPubKey vout).
Proof.
  intros Hl. unfold ParseTxFromJson_step. rewrite Hl.
  destruct (AmountToBigInt p (bchain.Vout.JsonValue vout)) as [v | e]; [| discriminate].
  intros Heq. injection Heq as <-. split; [reflexivity |].
  eexists v, _. split; [reflexivity |].
  cbn [bchain.Tx.with_Vout bchain.Tx.Vout]. rewrite list_insert_insert_eq.
  split; [reflexivity |]. split; [reflexivity |].
  cbn [bchain.Vout.ScriptPubKey bchain.ScriptPubKey.Hex].
  rewrite isCoinbaseTx_with_Vout.
  destruct (String.eqb _ ""); [| reflexivity].
  destruct (isCoinbaseTx tx); reflexivity.
Qed.

(** The JSON loop over distinct indices: every visited output ends with
    the script hex of its round, the others are untouched. *)
Lemma ParseTxFromJson_loop_spec (indices : list nat) :
  NoDup indices ->
  forall tx tx' : bchain.Tx.t,
    (forall i, i ∈ indices -> (i < length (bchain.Tx.Vout tx))%nat) ->
    ParseTxFromJson_loop p tx indices = Ok tx' ->
    bchain.Tx.Vin tx' = bchain.Tx.Vin tx
    /\ length (bchain.Tx.Vout tx') = length (bchain.Tx.Vout tx)
    /\ (forall j, j ∉ indices -> bchain.Tx.Vout tx' !! j = bchain.Tx.Vout tx !! j)
    /\ (forall j vout,
          j ∈ indices -> bchain.Tx.Vout tx !! j = Some vout ->
          exists vout',
            bchain.Tx.Vout tx' !! j = Some vout'
            /\ bchain.ScriptPubKey.Hex (bchain.Vout.ScriptPubKey vout')
               = if String.eqb (bchain.ScriptPubKey.Hex (bchain.Vout.ScriptPubKey vout)) ""
                 then if isCoinbaseTx tx then "f7"%string else "f8"%string
                 else bchain.ScriptPubKey.Hex (bchain.Vout.ScriptPubKey vout)).
Proof.
  induction 1 as [| i indices Hni Hnd IH]; intros tx tx' Hrange Hloop.
  - injection Hloop as <-. repeat split; try reflexivity.
    intros j vout Hj. inversion Hj.
  - cbn [ParseTxFromJson_loop] in Hloop.
    destruct (ParseTxFromJson_step p tx i) as [tx1 | e] eqn:Hstep; [| discriminate].
    assert (Hi : (i < length (bchain.Tx.Vout tx))%nat)
      by (apply Hrange; apply list_elem_of_here).
    destruct (lookup_lt_is_Some_2 _ _ Hi) as [vi Hvi].
    destruct (ParseTxFromJson_step_spec tx tx1 i vi Hvi Hstep)
      as (Hvin1 & v & vi' & _ & Hvout1 & _ & Hhex1).
    assert (Hlen1 : length (bchain.Tx.Vout tx1) = length (bchain.Tx.Vout tx))
      by (rewrite Hvout1; apply length_insert).
    destruct (IH tx1 tx') as (Hvin & Hlen & Hother & Hin).
    { intros k Hk. rewrite Hlen1. apply Hrange. now apply list_elem_of_further. }
    { exact Hloop. }
    assert (Hcb : isCoinbaseTx tx1 = isCoinbaseTx tx)
      by (unfold isCoinbaseTx; rewrite Hvin1; reflexivity).
    split; [congruence |]. split; [congruence |]. split.
    + intros j Hj. apply not_elem_of_cons in Hj as [Hji Hj].
      rewrite (Hother j Hj), Hvout1. now apply list_lookup_insert_ne.
    + intros j vout Hj Hvout. apply elem_of_cons in Hj as [-> | Hj].
      * rewrite (Hother i Hni), Hvout1, list_lookup_insert_eq by exact Hi.
        exists vi'. split; [reflexivity |].
        assert (vout = vi) as -> by congruence. exact Hhex1.
      * assert (Hji : i <> j) by (intros ->; contradiction).
        destruct (Hin j vout Hj) as (vout' & Hl' & Hh').
        { rewrite Hvout1. rewrite list_lookup_insert_ne by exact Hji. exact Hvout. }
        exists vout'. split; [exact Hl' |]. rewrite Hh', Hcb. reflexivity.
Qed.

(** The JSON loop goes through when every amount converts. *)
Lemma ParseTxFromJson_loop_succeeds (indices : list nat) :
  NoDup indices ->
  forall tx : bchain.Tx.t,
    (forall i vout, i ∈ indices -> bchain.Tx.Vout tx !! i = Some vout ->
                    exists v, AmountToBigInt p (bchain.Vout.JsonValue vout) = Ok v) ->
    exists tx', ParseTxFromJson_loop p tx indices = Ok tx'.
Proof.
  induction 1 as [| i indices Hni Hnd IH]; intros tx Hamount.
  - eexists. reflexivity.
  - cbn [ParseTxFromJson_loop].
    destruct (bchain.Tx.Vout tx !! i) as [vi |] eqn:Hvi.
    + destruct (Hamount i vi (list_elem_of_here _ _) Hvi) as [v Hv].
      assert (Hstep : exists tx1, ParseTxFromJson_step p tx i = Ok tx1
                                  /\ forall j, i <> j ->
                                       bchain.Tx.Vout tx1 !! j = bchain.Tx.Vout tx !! j).
      { unfold ParseTxFromJson_step. rewrite Hvi, Hv. eexists. split; [reflexivity |].
        intros j Hij. cbn [bchain.Tx.with_Vout bchain.Tx.Vout].
        now rewrite !list_lookup_insert_ne by exact Hij. }
      destruct Hstep as (tx1 & -> & Hsame).
      apply IH. intros j vout Hj Hl. apply (Hamount j vout).
      * now apply list_elem_of_further.
      * rewrite <- Hsame; [exact Hl |]. intros ->. contradiction.
    + unfold ParseTxFromJson_step. rewrite Hvi.
      apply IH. intros j vout Hj Hl. apply (Hamount j vout); [| exact Hl].
      now apply list_elem_of_further.
Qed.

(** C3 (as the code has it). An output whose script hex is empty after
    baseline decoding gets one of the two one-byte sentinels, whatever
    its position. On the binary path, with or without address
    resolution, it is the coinbase sentinel f7 exactly when the
    transaction is a baseline coinbase whose only input is not a
    coin-spend script, and the stake sentinel f8 otherwise. On the JSON
    path it is f7 exactly when the transaction has a single input with a
    non-empty coinbase field and sequence 0xffffffff, and f8 otherwise;
    the script bytes of that input are not looked at. *)
Theorem empty_script_sentinel :
  (forall (t : wire.MsgTx.t) (parseAddresses : bool) (i : nat) (out : wire.TxOut.t),
      wire.MsgTx.TxOut t !! i = Some out ->
      EncodeToString (wire.TxOut.PkScript out) = ""%string ->
      exists vout,
        bchain.Tx.Vout (TxFromMsgTx TxHash p t parseAddresses) !! i = Some vout
        /\ (bchain.ScriptPubKey.Hex (bchain.Vout.ScriptPubKey vout)
              = Sprintf_02x CBASE_ADDR_INT
            \/ bchain.ScriptPubKey.Hex (bchain.Vout.ScriptPubKey vout)
               = Sprintf_02x CSTAKE_ADDR_INT)
        /\ (bchain.ScriptPubKey.Hex (bchain.Vout.ScriptPubKey vout)
              = Sprintf_02x CBASE_ADDR_INT
            <-> IsCoinBaseTx t = true
                /\ exists in0,
                    wire.MsgTx.TxIn t = [in0]
                    /\ isZeroCoinSpendScript (wire.TxIn.SignatureScript in0) = false))
  /\ (forall (msg : string) (tx tx' : bchain.Tx.t),
        Unmarshal msg = Ok tx ->
        ParseTxFromJson Unmarshal p msg = Ok tx' ->
        forall (i : nat) (vout : bchain.Vout.t),
          bchain.Tx.Vout tx !! i = Some vout ->
          bchain.ScriptPubKey.Hex (bchain.Vout.ScriptPubKey vout) = ""%string ->
          exists vout',
            bchain.Tx.Vout tx' !! i = Some vout'
            /\ (bchain.ScriptPubKey.Hex (bchain.Vout.ScriptPubKey vout')
                  = Sprintf_02x CBASE_ADDR_INT
                \/ bchain.ScriptPubKey.Hex (bchain.Vout.ScriptPubKey vout')
                   = Sprintf_02x CSTAKE_ADDR_INT)
            /\ (bchain.ScriptPubKey.Hex (bchain.Vout.ScriptPubKey vout')
                  = Sprintf_02x CBASE_ADDR_INT
                <-> exists vin0,
                    bchain.Tx.Vin tx = [vin0]
                    /\ bchain.Vin.Coinbase vin0 <> ""%string
                    /\ bchain.Vin.Sequence vin0 = MaxUint32)).
Proof.
  split.
  - intros t parseAddresses i out Hout Hempty.
    destruct (TxFromMsgTx_vout_lookup t parseAddresses _ 0%nat i out Hout)
      as (vout & Hl & _ & _ & Hhex).
    exists vout. split; [exact Hl |].
    rewrite Hempty in Hhex. cbn [String.eqb] in Hhex. rewrite Hhex.
    rewrite <- coinbase_sentinel_cond_spec.
    destruct (coinbase_sentinel_cond t); split; auto;
      split; (reflexivity || discriminate).
  - intros msg tx tx' Hum Hparse i vout Hl Hempty.
    unfold ParseTxFromJson in Hparse. rewrite Hum in Hparse.
    destruct (ParseTxFromJson_loop_spec
                (seq 0 (length (bchain.Tx.Vout tx))) (NoDup_seq _ _) tx tx')
      as (_ & _ & _ & Hin); [| exact Hparse |].
    { intros k Hk. apply elem_of_seq in Hk. lia. }
    destruct (Hin i vout) as (vout' & Hl' & Hhex); [| exact Hl |].
    { apply elem_of_seq. apply lookup_lt_Some in Hl. lia. }
    exists vout'. split; [exact Hl' |].
    rewrite Hempty in Hhex. cbn [String.eqb] in Hhex. rewrite Hhex.
    rewrite <- isCoinbaseTx_spec.
    destruct (isCoinbaseTx tx); split; auto;
      split; (reflexivity || discriminate).
Qed.

(** The JSON path returns a transaction when the message unmarshals and
    every amount converts. *)
Lemma ParseTxFromJson_succeeds (msg : string) (tx : bchain.Tx.t) :
  Unmarshal msg = Ok tx ->
  (forall i vout, bchain.Tx.Vout tx !! i = Some vout ->
                  exists v, AmountToBigInt p (bchain.Vout.JsonValue vout) = Ok v) ->
  exists tx', ParseTxFromJson Unmarshal p msg = Ok tx'.
Proof.
  intros Hum Hamount. unfold ParseTxFromJson. rewrite Hum.
  apply ParseTxFromJson_loop_succeeds; [apply NoDup_seq |].
  intros i vout _ Hl. exact (Hamount i vout Hl).
Qed.

End SentinelProperties.

Lemma empty_script_sentinel_witness :
  (exists vout,
      bchain.Tx.Vout (TxFromMsgTx (fun _ => zeroHash) sample_parser
                        (sample_wire_tx [x51]) false) !! 0%nat = Some vout
      /\ bchain.ScriptPubKey.Hex (bchain.Vout.ScriptPubKey vout) = "f7"%string)
  /\ (exists tx' vout',
        ParseTxFromJson (fun _ => Ok (sample_json_tx "51" "")) sample_parser "" = Ok tx'
        /\ bchain.Tx.Vout tx' !! 0%nat = Some vout'
        /\ bchain.ScriptPubKey.Hex (bchain.Vout.ScriptPubKey vout') = "f7"%string).
Proof.
  pose proof (empty_script_sentinel (fun _ => zeroHash)
                (fun _ => Ok (sample_json_tx "51" "")) sample_parser) as [Hbin Hjson].
  split.
  - destruct (Hbin (sample_wire_tx [x51]) false 0%nat (wire.TxOut.mk 0 []))
      as (vout & Hl & _ & Hiff); [reflexivity | reflexivity |].
    exists vout. split; [exact Hl |]. apply Hiff. split; [reflexivity |].
    eexists. split; reflexivity.
  - destruct (ParseTxFromJson (fun _ => Ok (sample_json_tx "51" "")) sample_parser "")
      as [tx' | e] eqn:Hp; [| discriminate Hp].
    destruct (Hjson ""%string _ tx' eq_refl Hp 0%nat _ eq_refl eq_refl)
      as (vout' & Hl' & _ & Hiff).
    exists tx', vout'. split; [reflexivity |]. split; [exact Hl' |].
    apply Hiff. eexists. split; [reflexivity |]. split; [discriminate | reflexivity].
Defined.

(** C3, counterexample on the JSON path: a transaction whose single
    input has a coinbase field and a script that both decode to a
    coin-spend script is still given the coinbase sentinel f7, where the
    specification asks for the stake sentinel f8. *)
Lemma ParseTxFromJson_spend_coinbase_gets_coinbase_sentinel :
  let hex := EncodeToString sample_spend_script in
  let tx := sample_json_tx hex hex in
  isCoinbaseTx tx = true
  /\ (forall vin0, bchain.Tx.Vin tx = [vin0] ->
        isZeroCoinSpendScript (fst (DecodeString (bchain.Vin.Coinbase vin0))) = true
        /\ isZeroCoinSpendScript
             (fst (DecodeString (bchain.ScriptSig.Hex (bchain.Vin.ScriptSig vin0)))) = true)
  /\ exists tx' vout',
      ParseTxFromJson (fun _ => Ok tx) sample_parser "" = Ok tx'
      /\ bchain.Tx.Vout tx' !! 0%nat = Some vout'
      /\ bchain.ScriptPubKey.Hex (bchain.Vout.ScriptPubKey vout')
         = Sprintf_02x CBASE_ADDR_INT
      /\ bchain.ScriptPubKey.Hex (bchain.Vout.ScriptPubKey vout')
         <> Sprintf_02x CSTAKE_ADDR_INT.
Proof.
  cbv zeta. split; [reflexivity |]. split.
  - intros vin0 Hv. injection Hv as <-.
    split; vm_compute; reflexivity.
  - eexists. eexists. split; [vm_compute; reflexivity |].
    split; [reflexivity |]. split; [reflexivity | discriminate].
Qed.

(** The same transaction in wire form gets the stake sentinel. *)
Example TxFromMsgTx_spend_coinbase_gets_stake_sentinel :
  IsCoinBaseTx (sample_wire_tx sample_spend_script) = true
  /\ bchain.ScriptPubKey.Hex
       <$> (bchain.Vout.ScriptPubKey
              <$> bchain.Tx.Vout (TxFromMsgTx (fun _ => zeroHash) sample_parser
                                   (sample_wire_tx sample_spend_script) false) !! 0%nat)
     = Some (Sprintf_02x CSTAKE_ADDR_INT).
Proof. split; reflexivity. Qed.

Lemma TxFromMsgTx_single_spend_input_not_coinbase_witness :
  let in_ := wire.TxIn.mk sample_null_outpoint sample_spend_script MaxUint32 in
  let t := sample_wire_tx sample_spend_script in
  IsCoinBaseTx t = true
  /\ exists vin,
      bchain.Tx.Vin (TxFromMsgTx (fun _ => zeroHash) sample_parser t false) = [vin]
      /\ bchain.Vin.Coinbase vin = ""%string
      /\ bchain.Vin.Txid vin
         = Hash_String (wire.OutPoint.Hash (wire.TxIn.PreviousOutPoint in_))
      /\ bchain.Vin.Vout vin = wire.OutPoint.Index (wire.TxIn.PreviousOutPoint in_)
      /\ bchain.Vin.Sequence vin = wire.TxIn.Sequence in_
      /\ DecodeString (bchain.ScriptSig.Hex (bchain.Vin.ScriptSig vin))
         = (wire.TxIn.SignatureScript in_, None)
      /\ isCoinbaseTx (TxFromMsgTx (fun _ => zeroHash) sample_parser t false) = false.
Proof.
  cbv zeta. split; [reflexivity |].
  apply (TxFromMsgTx_single_spend_input_not_coinbase (fun _ => zeroHash) sample_parser
           (sample_wire_tx sample_spend_script) false
           (wire.TxIn.mk sample_null_outpoint sample_spend_script MaxUint32)).
  - reflexivity.
  - apply Nat.leb_le. reflexivity.
  - reflexivity.
Defined.

(** ** The script classifier *)

Lemma isZeroCoinMintScript_spec (s : list byte) :
  isZeroCoinMintScript s = true
  <-> (1 < length s)%nat /\ s !! 0%nat = Some OP_ZEROCOINMINT.
Proof.
  unfold isZeroCoinMintScript.
  rewrite andb_true_iff, Nat.ltb_lt, first_byte_is_spec. reflexivity.
Qed.

Lemma one_byte_script (s : list byte) (c : byte) :
  (length s =? 1)%nat && first_byte_is s c = true <-> s = [c].
Proof.
  rewrite andb_true_iff, Nat.eqb_eq, first_byte_is_spec.
  destruct s as [| b0 [| b1 s']]; cbn [length]; split.
  - intros [H _]. discriminate H.
  - discriminate.
  - intros [_ H]. injection H as ->. reflexivity.
  - intros H. injection H as ->. split; reflexivity.
  - intros [H _]. discriminate H.
  - discriminate.
Qed.

Lemma isCoinBaseFakeAddr_spec (s : list byte) :
  isCoinBaseFakeAddr s = true <-> s = [CBASE_ADDR_INT].
Proof. apply one_byte_script. Qed.

Lemma isCoinStakeFakeAddr_spec (s : list byte) :
  isCoinStakeFakeAddr s = true <-> s = [CSTAKE_ADDR_INT].
Proof. apply one_byte_script. Qed.

Lemma not_true_false_iff (b : bool) (P : Prop) : (b = true <-> P) -> (~ P -> b = false).
Proof. intros H HP. destruct b; [exfalso; apply HP, H; reflexivity | reflexivity]. Qed.

(** The classifier installed by [NewDogeCParser] is [outputScriptToAddresses]. *)
Lemma NewDogeCParser_classifier
    (amountToBigInt : string -> result Z)
    (btc : list byte -> AddressesResult) (s : list byte) :
  OutputScriptToAddressesFunc (NewDogeCParser amountToBigInt btc) s
  = outputScriptToAddresses (NewDogeCParser amountToBigInt btc) s.
Proof. reflexivity. Qed.

(** C6. The classifier tries its rules in a fixed order and answers with
    the first that matches: coin-spend, coin-mint, coinbase sentinel,
    stake sentinel, each with its single label and resolved = false;
    otherwise the labels and the flag of the baseline decoder. The error
    component is always nil. *)
Theorem outputScriptToAddresses_first_match (p : DogeCParser) (s : list byte) :
  let spend := (100 <= length s)%nat /\ s !! 0%nat = Some OP_ZEROCOINSPEND in
  let mint := (1 < length s)%nat /\ s !! 0%nat = Some OP_ZEROCOINMINT in
  let baseline := BitcoinOutputScriptToAddressesFunc p s in
  (spend ->
   outputScriptToAddresses p s = (["Zerocoin Spend"%string], false, None))
  /\ (~ spend -> mint ->
      outputScriptToAddresses p s = (["Zerocoin Mint"%string], false, None))
  /\ (~ spend -> ~ mint -> s = [CBASE_ADDR_INT] ->
      outputScriptToAddresses p s = (["CoinBase TX"%string], false, None))
  /\ (~ spend -> ~ mint -> s <> [CBASE_ADDR_INT] -> s = [CSTAKE_ADDR_INT] ->
      outputScriptToAddresses p s = (["CoinStake TX"%string], false, None))
  /\ (~ spend -> ~ mint -> s <> [CBASE_ADDR_INT] -> s <> [CSTAKE_ADDR_INT] ->
      outputScriptToAddresses p s = (baseline.1.1, baseline.1.2, None))
  /\ (outputScriptToAddresses p s).2 = None.
Proof.
  cbv zeta. unfold outputScriptToAddresses, outputScriptToAddresses_of.
  pose proof (isZeroCoinSpendScript_spec s) as Hs.
  pose proof (isZeroCoinMintScript_spec s) as Hm.
  pose proof (isCoinBaseFakeAddr_spec s) as Hc.
  pose proof (isCoinStakeFakeAddr_spec s) as Hk.
  repeat split.
  - intros H. apply Hs in H. rewrite H. reflexivity.
  - intros Hn H. rewrite (not_true_false_iff _ _ Hs Hn).
    apply Hm in H. rewrite H. reflexivity.
  - intros Hn Hnm H. rewrite (not_true_false_iff _ _ Hs Hn), (not_true_false_iff _ _ Hm Hnm).
    apply Hc in H. rewrite H. reflexivity.
  - intros Hn Hnm Hnc H.
    rewrite (not_true_false_iff _ _ Hs Hn), (not_true_false_iff _ _ Hm Hnm),
      (not_true_false_iff _ _ Hc Hnc).
    apply Hk in H. rewrite H. reflexivity.
  - intros Hn Hnm Hnc Hnk.
    rewrite (not_true_false_iff _ _ Hs Hn), (not_true_false_iff _ _ Hm Hnm),
      (not_true_false_iff _ _ Hc Hnc), (not_true_false_iff _ _ Hk Hnk).
    destruct (BitcoinOutputScriptToAddressesFunc p s) as [[rv sf] e]. reflexivity.
  - destruct (isZeroCoinSpendScript s); [reflexivity |].
    destruct (isZeroCoinMintScript s); [reflexivity |].
    destruct (isCoinBaseFakeAddr s); [reflexivity |].
    destruct (isCoinStakeFakeAddr s); [reflexivity |].
    destruct (BitcoinOutputScriptToAddressesFunc p s) as [[rv sf] e]. reflexivity.
Qed.

Lemma outputScriptToAddresses_first_match_witness :
  outputScriptToAddresses sample_failing_parser sample_spend_script
  = (["Zerocoin Spend"%string], false, None)
  /\ outputScriptToAddresses sample_failing_parser [OP_ZEROCOINMINT; x00]
     = (["Zerocoin Mint"%string], false, None)
  /\ outputScriptToAddresses sample_failing_parser [CBASE_ADDR_INT]
     = (["CoinBase TX"%string], false, None)
  /\ outputScriptToAddresses sample_failing_parser [CSTAKE_ADDR_INT]
     = (["CoinStake TX"%string], false, None)
  /\ outputScriptToAddresses sample_failing_parser [OP_ZEROCOINSPEND; x00]
     = (["DAddr"%string], true, None).
Proof.
  split; [| split; [| split; [| split]]].
  - apply (outputScriptToAddresses_first_match sample_failing_parser sample_spend_script).
    split; [apply Nat.leb_le; reflexivity | reflexivity].
  - apply (outputScriptToAddresses_first_match sample_failing_parser [OP_ZEROCOINMINT; x00]).
    + intros [_ H]. discriminate H.
    + split; [apply Nat.ltb_lt; reflexivity | reflexivity].
  - apply (outputScriptToAddresses_first_match sample_failing_parser [CBASE_ADDR_INT]).
    + intros [_ H]. discriminate H.
    + intros [_ H]. discriminate H.
    + reflexivity.
  - apply (outputScriptToAddresses_first_match sample_failing_parser [CSTAKE_ADDR_INT]).
    + intros [_ H]. discriminate H.
    + intros [_ H]. discriminate H.
    + discriminate.
    + reflexivity.
  - apply (outputScriptToAddresses_first_match sample_failing_parser [OP_ZEROCOINSPEND; x00]).
    + intros [H _]. apply Nat.leb_le in H. discriminate H.
    + intros [_ H]. discriminate H.
    + discriminate.
    + discriminate.
Defined.

(** ** Value of an input whose previous output is unknown *)

Lemma go_index_in_range {A} (l : list A) (i : Z) :
  0 <= i < Z.of_nat (length l) ->
  exists a, l !! Z.to_nat i = Some a /\ go_index l i = Returns a.
Proof.
  intros Hi. unfold go_index.
  destruct (Z.ltb_spec i 0) as [Hneg | _]; [lia |].
  destruct (Z.leb_spec (Z.of_nat (length l)) i) as [Hge | _]; [lia |].
  destruct (l !! Z.to_nat i) as [a |] eqn:Hl.
  - exists a. split; reflexivity.
  - apply lookup_ge_None in Hl. lia.
Qed.

(** C7 (as the code has it). For a non-negative input index the call
    always returns: the decoded coin-spend value when the index is in
    range, the script hex is non-empty, the decoded script is a
    coin-spend script and its value decodes; zero when the index is past
    the inputs, the script hex is empty, the script is not a coin-spend
    script, or the value does not decode, in which last case a warning is
    logged. *)
Theorem GetValueSatForUnknownInput_returns (tx : bchain.Tx.t) (input : Z) :
  0 <= input ->
  exists value log,
    GetValueSatForUnknownInput tx input = Returns (value, log)
    /\ (Z.of_nat (length (bchain.Tx.Vin tx)) <= input -> value = 0 /\ log = [])
    /\ (forall vin,
          bchain.Tx.Vin tx !! Z.to_nat input = Some vin ->
          let scriptHex := bchain.ScriptSig.Hex (bchain.Vin.ScriptSig vin) in
          let script := (DecodeString scriptHex).1 in
          (scriptHex = ""%string -> value = 0 /\ log = [])
          /\ (scriptHex <> ""%string -> isZeroCoinSpendScript script = false ->
              value = 0 /\ log = [])
          /\ (forall e,
                scriptHex <> ""%string -> isZeroCoinSpendScript script = true ->
                GetValueSatFromZerocoinSpend script = Err e ->
                value = 0
                /\ log = [Warning_unable_to_convert_denom (bchain.Tx.Txid tx) input])
          /\ (forall valueSat,
                scriptHex <> ""%string -> isZeroCoinSpendScript script = true ->
                GetValueSatFromZerocoinSpend script = Ok valueSat ->
                value = valueSat /\ log = [])).
Proof.
  intros Hnonneg. unfold GetValueSatForUnknownInput.
  destruct (Z.gtb_spec (Z.of_nat (length (bchain.Tx.Vin tx))) input) as [Hin | Hout].
  - destruct (go_index_in_range (bchain.Tx.Vin tx) input) as (vin & Hl & ->); [lia |].
    destruct (String.eqb_spec (bchain.ScriptSig.Hex (bchain.Vin.ScriptSig vin)) "")
      as [Hempty | Hnonempty]; cbn [negb].
    + exists 0, []. split; [reflexivity |]. split; [lia |].
      intros vin' Hl'. assert (vin' = vin) as -> by congruence. cbv zeta.
      repeat split; try congruence.
    + destruct (DecodeString (bchain.ScriptSig.Hex (bchain.Vin.ScriptSig vin)))
        as [script err] eqn:Hdec.
      destruct (isZeroCoinSpendScript script) eqn:Hspend.
      * destruct (GetValueSatFromZerocoinSpend script) as [valueSat | e] eqn:Hval.
        -- exists valueSat, []. split; [reflexivity |]. split; [lia |].
           intros vin' Hl'. assert (vin' = vin) as -> by congruence. cbv zeta.
           rewrite Hdec. cbn [fst]. rewrite Hspend, Hval.
           repeat split; try congruence.
        -- eexists 0, _. split; [reflexivity |]. split; [lia |].
           intros vin' Hl'. assert (vin' = vin) as -> by congruence. cbv zeta.
           rewrite Hdec. cbn [fst]. rewrite Hspend, Hval.
           repeat split; try congruence.
      * exists 0, []. split; [reflexivity |]. split; [lia |].
        intros vin' Hl'. assert (vin' = vin) as -> by congruence. cbv zeta.
        rewrite Hdec. cbn [fst]. rewrite Hspend.
        repeat split; try congruence.
  - exists 0, []. split; [reflexivity |]. split; [auto |].
    intros vin Hl. apply lookup_lt_Some in Hl. lia.
Qed.

Lemma GetValueSatForUnknownInput_returns_witness :
  0 <= 0
  /\ exists log,
      GetValueSatForUnknownInput
        (sample_json_tx "" (EncodeToString sample_valued_spend_script)) 0
      = Returns (5 * 10 ^ 8, log).
Proof.
  split; [lia |].
  destruct (GetValueSatForUnknownInput_returns
              (sample_json_tx "" (EncodeToString sample_valued_spend_script)) 0)
    as (value & log & Hret & _ & Hin); [lia |].
  exists log. rewrite Hret.
  destruct (Hin _ eq_refl) as (_ & _ & _ & Hok).
  destruct (Hok (5 * 10 ^ 8)) as [-> _];
    [discriminate | vm_compute; reflexivity | vm_compute; reflexivity |].
  reflexivity.
Defined.

(** C7, counterexample at a negative index: the length test lets it
    through and indexing the inputs panics, where the specification asks
    for zero. *)
Lemma GetValueSatForUnknownInput_negative_index_panics :
  GetValueSatForUnknownInput (sample_json_tx "" "") (-1) = Panics ErrIndexOutOfRange
  /\ forall value log,
      GetValueSatForUnknownInput (sample_json_tx "" "") (-1) <> Returns (value, log).
Proof. split; [reflexivity | discriminate]. Qed.

(** ** Block decoder *)

Lemma ReadFull_cases (n : nat) (s : list byte) (i : nat) :
  (0 < n)%nat ->
  (ReadFull n (mkReader s (Z.of_nat i))
   = (Ok (take n (drop i s)), mkReader s (Z.of_nat (i + n)))
   /\ (i + n <= length s)%nat)
  \/ (exists e r', ReadFull n (mkReader s (Z.of_nat i)) = (Err e, r')
                   /\ (length s < i + n)%nat).
Proof.
  intros Hn. destruct (Nat.le_gt_cases (i + n) (length s)) as [Hle | Hgt].
  - left. split; [| exact Hle]. rewrite ReadFull_enough by assumption.
    rewrite Nat2Z.inj_add. reflexivity.
  - right. destruct (ReadFull_short n s (Z.of_nat i)) as (e & r' & H); [lia | lia | lia |].
    exists e, r'. split; assumption.
Qed.

(** A header that deserializes took exactly the first 80 bytes. *)
Lemma BlockHeader_Deserialize_ok (b : list byte) (h : wire.BlockHeader.t) (r1 : Reader) :
  BlockHeader_Deserialize (NewReader b) = (Ok h, r1) ->
  r1 = mkReader b 80
  /\ (80 <= length b)%nat
  /\ wire.BlockHeader.Version h = wrap_int32 (le_combine (take 4 b))
  /\ wire.BlockHeader.Timestamp h = le_combine (take 4 (drop 68 b)).
Proof.
  unfold BlockHeader_Deserialize, NewReader, rd_try, rd_bind, rd_ret.
  change 0 with (Z.of_nat 0).
  repeat match goal with
  | |- context [ReadFull ?n (mkReader b (Z.of_nat ?i))] =>
      destruct (ReadFull_cases n b i) as [[-> ?] | (? & ? & -> & ?)];
      [lia | | discriminate]
  end.
  intros Heq. injection Heq as <- <-. repeat split; reflexivity || (simpl in *; lia).
Qed.

(** A buffer of at least 80 bytes always yields a header. *)
Lemma BlockHeader_Deserialize_total (b : list byte) :
  (80 <= length b)%nat ->
  exists h, BlockHeader_Deserialize (NewReader b) = (Ok h, mkReader b 80).
Proof.
  intros Hlen.
  unfold BlockHeader_Deserialize, NewReader, rd_try, rd_bind, rd_ret.
  change 0 with (Z.of_nat 0).
  repeat match goal with
  | |- context [ReadFull ?n (mkReader b (Z.of_nat ?i))] =>
      destruct (ReadFull_cases n b i) as [[-> ?] | (? & ? & -> & ?)];
      [lia | | simpl in *; lia]
  end.
  eexists. reflexivity.
Qed.

Section BlockProperties.

Variable TxHash : wire.MsgTx.t -> list byte.
Variable DecodeTransactions : RdM (result (list wire.MsgTx.t)).
Variable p : DogeCParser.

(** C4. Once the 80-byte header is read with version [v], the
    transaction list is decoded from offset 80 + 32 when [v] is 4, 5 or
    6 and from offset 80 for every other version, 3 and 7 among them;
    a returned block has the length of the buffer as size and the
    timestamp of the header as time. *)
Theorem ParseBlock_version_skip (b : list byte) (h : wire.BlockHeader.t) (r1 : Reader) :
  BlockHeader_Deserialize (NewReader b) = (Ok h, r1) ->
  let v := wire.BlockHeader.Version h in
  rd_i r1 = 80
  /\ (v = 4 \/ v = 5 \/ v = 6 ->
      ParseBlock TxHash DecodeTransactions p b
      = rd_eval (ParseBlock_body TxHash DecodeTransactions p b h) (mkReader b (80 + 32)))
  /\ (~ (v = 4 \/ v = 5 \/ v = 6) ->
      ParseBlock TxHash DecodeTransactions p b
      = rd_eval (ParseBlock_body TxHash DecodeTransactions p b h) (mkReader b 80))
  /\ (v = 3 \/ v = 7 ->
      ParseBlock TxHash DecodeTransactions p b
      = rd_eval (ParseBlock_body TxHash DecodeTransactions p b h) (mkReader b 80))
  /\ (forall block,
        ParseBlock TxHash DecodeTransactions p b = Ok block ->
        bchain.BlockHeader.Size (bchain.Block.BlockHeader block) = Z.of_nat (length b)
        /\ bchain.BlockHeader.Time (bchain.Block.BlockHeader block)
           = wire.BlockHeader.Timestamp h
        /\ exists transactions r2 r3,
            DecodeTransactions r2 = (Ok transactions, r3)
            /\ rd_s r2 = b
            /\ rd_i r2 = (if (v >? 3) && (v <? 7) then 80 + 32 else 80)
            /\ bchain.Block.Txs block
               = map (fun t => TxFromMsgTx TxHash p t false) transactions).
Proof.
  intros Hh v.
  destruct (BlockHeader_Deserialize_ok b h r1 Hh) as (-> & Hlen & _ & _).
  assert (Hskip : v = 4 \/ v = 5 \/ v = 6 ->
                  ParseBlock TxHash DecodeTransactions p b
                  = rd_eval (ParseBlock_body TxHash DecodeTransactions p b h)
                      (mkReader b (80 + 32))).
  { intros Hv. unfold ParseBlock, rd_eval, rd_bind at 1. rewrite Hh.
    unfold rd_bind at 1. fold v.
    replace ((v >? 3) && (v <? 7)) with true
      by (symmetry; apply andb_true_iff; split; [apply Z.gtb_lt | apply Z.ltb_lt]; lia).
    reflexivity. }
  assert (Hnoskip : ~ (v = 4 \/ v = 5 \/ v = 6) ->
                    ParseBlock TxHash DecodeTransactions p b
                    = rd_eval (ParseBlock_body TxHash DecodeTransactions p b h)
                        (mkReader b 80)).
  { intros Hv. unfold ParseBlock, rd_eval, rd_bind at 1. rewrite Hh.
    unfold rd_bind at 1. fold v.
    replace ((v >? 3) && (v <? 7)) with false; [reflexivity |].
    symmetry. apply andb_false_iff.
    destruct (Z.gtb_spec v 3); [| now left].
    destruct (Z.ltb_spec v 7); [lia | now right]. }
  split; [reflexivity |]. split; [exact Hskip |]. split; [exact Hnoskip |].
  split; [intros Hv; apply Hnoskip; lia |].
  intros block Hblock.
  assert (Hbody : exists r2,
             rd_s r2 = b
             /\ rd_i r2 = (if (v >? 3) && (v <? 7) then 80 + 32 else 80)
             /\ rd_eval (ParseBlock_body TxHash DecodeTransactions p b h) r2 = Ok block).
  { destruct ((v >? 3) && (v <? 7)) eqn:Hv.
    - exists (mkReader b (80 + 32)). repeat split. rewrite <- Hskip; [exact Hblock |].
      apply andb_true_iff in Hv as [H3 H7].
      apply Z.gtb_lt in H3. apply Z.ltb_lt in H7. lia.
    - exists (mkReader b 80). repeat split. rewrite <- Hnoskip; [exact Hblock |].
      intros Hv'. apply andb_false_iff in Hv as [H3 | H7].
      + destruct (Z.gtb_spec v 3); [discriminate | lia].
      + apply Z.ltb_ge in H7. lia. }
  destruct Hbody as (r2 & Hs & Hi & Hbody).
  unfold ParseBlock_body, rd_eval, rd_bind in Hbody.
  destruct (DecodeTransactions r2) as [[transactions | e] r3] eqn:Hdt;
    [| discriminate Hbody].
  cbn in Hbody. injection Hbody as <-. cbn.
  split; [reflexivity |]. split; [reflexivity |].
  exists transactions, r2, r3. auto.
Qed.

End BlockProperties.

Lemma ParseBlock_version_skip_witness :
  let h4 := wire.BlockHeader.mk 4 (replicate 32 x00) (replicate 32 x00) 1 0 0 in
  let h7 := wire.BlockHeader.mk 7 (replicate 32 x00) (replicate 32 x00) 1 0 0 in
  BlockHeader_Deserialize (NewReader sample_block_v4) = (Ok h4, mkReader sample_block_v4 80)
  /\ BlockHeader_Deserialize (NewReader sample_block_v7) = (Ok h7, mkReader sample_block_v7 80)
  /\ ParseBlock (fun _ => zeroHash) sample_DecodeTransactions sample_parser sample_block_v4
     = Ok (bchain.Block.mk (bchain.BlockHeader.mk 113 1) [])
  /\ ParseBlock (fun _ => zeroHash) sample_DecodeTransactions sample_parser sample_block_v7
     = Ok (bchain.Block.mk (bchain.BlockHeader.mk 81 1) []).
Proof.
  cbv zeta.
  assert (H4 : BlockHeader_Deserialize (NewReader sample_block_v4)
               = (Ok (wire.BlockHeader.mk 4 (replicate 32 x00) (replicate 32 x00) 1 0 0),
                  mkReader sample_block_v4 80)) by (vm_compute; reflexivity).
  assert (H7 : BlockHeader_Deserialize (NewReader sample_block_v7)
               = (Ok (wire.BlockHeader.mk 7 (replicate 32 x00) (replicate 32 x00) 1 0 0),
                  mkReader sample_block_v7 80)) by (vm_compute; reflexivity).
  split; [exact H4 |]. split; [exact H7 |]. split.
  - destruct (ParseBlock_version_skip (fun _ => zeroHash) sample_DecodeTransactions
                sample_parser _ _ _ H4) as (_ & Hskip & _).
    rewrite Hskip; [vm_compute; reflexivity | left; reflexivity].
  - destruct (ParseBlock_version_skip (fun _ => zeroHash) sample_DecodeTransactions
                sample_parser _ _ _ H7) as (_ & _ & _ & Hnoskip & _).
    rewrite Hnoskip; [vm_compute; reflexivity | right; reflexivity].
Defined.

(** ** Next superblock height *)

Lemma MaxInt_value : MaxInt = 9223372036854775807.
Proof. reflexivity. Qed.

Lemma wrap_int_small (z : Z) : - MaxInt - 1 <= z <= MaxInt -> wrap_int z = z.
Proof.
  rewrite MaxInt_value. unfold wrap_int, wrap_signed, int_bits.
  change (2 ^ (64 - 1)) with 9223372036854775808.
  change (2 ^ 64) with 18446744073709551616.
  intros H. rewrite Z.mod_small; lia.
Qed.

Example GetNextSuperBlock_0 : GetNextSuperBlock 0 = 43200.
Proof. reflexivity. Qed.

Example GetNextSuperBlock_43200 : GetNextSuperBlock 43200 = 86400.
Proof. reflexivity. Qed.

Example GetNextSuperBlock_43199 : GetNextSuperBlock 43199 = 43200.
Proof. reflexivity. Qed.

(** C5 (as the code has it). For a non-negative height whose next period
    boundary still fits Go's int, the result is h - (h mod 43200) + 43200:
    a multiple of 43200, strictly above h, and the least such; so 0 gives
    43200, 43200 gives 86400 and 43199 gives 43200. *)
Theorem GetNextSuperBlock_next_multiple (h : Z) :
  0 <= h -> h - h mod 43200 + 43200 <= MaxInt ->
  GetNextSuperBlock h = h - h mod 43200 + 43200
  /\ (43200 | GetNextSuperBlock h)
  /\ h < GetNextSuperBlock h
  /\ (forall m, (43200 | m) -> h < m -> GetNextSuperBlock h <= m)
  /\ GetNextSuperBlock 0 = 43200
  /\ GetNextSuperBlock 43200 = 86400
  /\ GetNextSuperBlock 43199 = 43200.
Proof.
  intros Hh Hfit.
  assert (Hval : GetNextSuperBlock h = h - h mod 43200 + 43200).
  { unfold GetNextSuperBlock, go_rem, nBlocksPerPeriod.
    rewrite Z.rem_mod_nonneg by lia.
    pose proof (Z.mod_pos_bound h 43200 ltac:(lia)) as Hm.
    rewrite (wrap_int_small (h - h mod 43200)) by (rewrite MaxInt_value in *; lia).
    rewrite wrap_int_small by lia. reflexivity. }
  pose proof (Z.mod_pos_bound h 43200 ltac:(lia)) as Hm.
  pose proof (Z.div_mod h 43200 ltac:(lia)) as Hdiv.
  rewrite Hval. split; [reflexivity |]. split.
  - exists (h / 43200 + 1). lia.
  - split; [lia |]. split; [| repeat split; reflexivity].
    intros m [k ->] Hlt. nia.
Qed.

Lemma GetNextSuperBlock_next_multiple_witness :
  0 <= 43200 /\ 43200 - 43200 mod 43200 + 43200 <= MaxInt
  /\ GetNextSuperBlock 43200 = 43200 - 43200 mod 43200 + 43200
  /\ 43200 < GetNextSuperBlock 43200.
Proof.
  split; [lia |]. split; [vm_compute; discriminate |].
  destruct (GetNextSuperBlock_next_multiple 43200) as (Hval & _ & Hlt & _);
    [lia | vm_compute; discriminate |].
  split; [exact Hval | exact Hlt].
Defined.

(** C5, counterexample at the top of Go's int range: the sum wraps
    around, the result is negative and lies below the height. *)
Lemma GetNextSuperBlock_wraps_at_MaxInt :
  0 <= MaxInt
  /\ GetNextSuperBlock MaxInt <> MaxInt - MaxInt mod 43200 + 43200
  /\ GetNextSuperBlock MaxInt < 0
  /\ ~ (MaxInt < GetNextSuperBlock MaxInt).
Proof.
  vm_compute. repeat split; discriminate.
Qed.

(** ** Serial lookup and chain info *)

Section RPCProperties.

Variable World : Type.
Variable ZCdenoms : Type.
Variable BitcoinGetChainInfo : World -> result (rpc.ChainInfo ZCdenoms) * World.
Variable Call_ResGetInfo :
  rpc.Cmd -> World -> rpc.ResGetInfo ZCdenoms * option error * World.
Variable Call_ResGetMasternodeCount :
  rpc.Cmd -> World -> rpc.ResGetMasternodeCount * option error * World.
Variable Call_ResFindSerial :
  rpc.Cmd -> World -> rpc.ResFindSerial * option error * World.

(** C8. When the findserial call goes through and the response has no
    RPC error object, a false success flag gives the text "Serial not
    found in blockchain" with no error and a true flag gives the txid of
    the response; a transport failure or an RPC error object gives that
    error with an empty string. *)
Theorem Findzcserial_outcomes (serialHex : string) (w w' : World)
    (res : rpc.ResFindSerial) (err : option error) :
  Call_ResFindSerial (rpc.CmdFindSerial "findserial" [serialHex]) w = (res, err, w') ->
  (err = None -> rpc.fs_Error res = None -> rpc.Success res = false ->
   Findzcserial World Call_ResFindSerial serialHex w
   = ("Serial not found in blockchain"%string, None, w'))
  /\ (err = None -> rpc.fs_Error res = None -> rpc.Success res = true ->
      Findzcserial World Call_ResFindSerial serialHex w = (rpc.Txid res, None, w'))
  /\ (forall e, err = Some e ->
                Findzcserial World Call_ResFindSerial serialHex w = (""%string, Some e, w'))
  /\ (forall e, err = None -> rpc.fs_Error res = Some e ->
                Findzcserial World Call_ResFindSerial serialHex w
                = (""%string, Some (RPCError (rpc.Code e) (rpc.Message e)), w')).
Proof.
  intros Hcall. unfold Findzcserial. rewrite Hcall. repeat split.
  - intros -> -> ->. reflexivity.
  - intros -> -> ->. reflexivity.
  - intros e ->. reflexivity.
  - intros e -> ->. reflexivity.
Qed.

(** C9. [GetChainInfo] returns an error and no result as soon as the
    baseline fetch fails, or the getinfo call or the getmasternodecount
    call fails in transport or answers with an RPC error object; when
    all three go through, the result carries the enabled count of the
    getmasternodecount response as masternode count and
    [GetNextSuperBlock] of the baseline headers count as next
    superblock. *)
Theorem GetChainInfo_outcomes (w : World) :
  let run := GetChainInfo World ZCdenoms BitcoinGetChainInfo Call_ResGetInfo
               Call_ResGetMasternodeCount w in
  (forall e w1, BitcoinGetChainInfo w = (Err e, w1) -> run = (None, Some e, w1))
  /\ (forall rv w1 resGi err w2,
        BitcoinGetChainInfo w = (Ok rv, w1) ->
        Call_ResGetInfo (rpc.CmdGetInfo "getinfo") w1 = (resGi, err, w2) ->
        (forall e, err = Some e -> run = (None, Some e, w2))
        /\ (forall e, err = None -> rpc.gi_Error resGi = Some e ->
                      run = (None, Some (RPCError (rpc.Code e) (rpc.Message e)), w2))
        /\ (forall resMc err' w3,
              err = None -> rpc.gi_Error resGi = None ->
              Call_ResGetMasternodeCount
                (rpc.CmdGetMasternodeCount "getmasternodecount") w2 = (resMc, err', w3) ->
              (forall e, err' = Some e -> run = (None, Some e, w3))
              /\ (forall e, err' = None -> rpc.mc_Error resMc = Some e ->
                            run = (None, Some (RPCError (rpc.Code e) (rpc.Message e)), w3))
              /\ (err' = None -> rpc.mc_Error resMc = None ->
                  exists info,
                    run = (Some info, None, w3)
                    /\ rpc.MasternodeCount info = rpc.Enabled resMc
                    /\ rpc.NextSuperBlock info = GetNextSuperBlock (rpc.Headers rv)
                    /\ rpc.MoneySupply info = rpc.gi_MoneySupply resGi
                    /\ rpc.ZerocoinSupply info = rpc.gi_ZerocoinSupply resGi
                    /\ rpc.Headers info = rpc.Headers rv
                    /\ rpc.Blocks info = rpc.Blocks rv
                    /\ rpc.Chain info = rpc.Chain rv))).
Proof.
  cbv zeta. unfold GetChainInfo. split.
  - intros e w1 ->. reflexivity.
  - intros rv w1 resGi err w2 -> ->. split; [| split].
    + intros e ->. reflexivity.
    + intros e -> ->. reflexivity.
    + intros resMc err' w3 -> -> ->. split; [| split].
      * intros e ->. reflexivity.
      * intros e -> ->. reflexivity.
      * intros -> ->. eexists. split; [reflexivity |]. repeat split.
Qed.

End RPCProperties.

Lemma Findzcserial_outcomes_witness :
  Findzcserial nat sample_Call_ResFindSerial "00" 0%nat
  = ("Serial not found in blockchain"%string, None, 1%nat)
  /\ Findzcserial nat sample_Call_ResFindSerial "01" 0%nat = ("abcd"%string, None, 1%nat).
Proof.
  split.
  - apply (Findzcserial_outcomes nat sample_Call_ResFindSerial "00" 0%nat 1%nat
             (rpc.mkResFindSerial None false "") None); reflexivity.
  - apply (Findzcserial_outcomes nat sample_Call_ResFindSerial "01" 0%nat 1%nat
             (rpc.mkResFindSerial None true "abcd") None); reflexivity.
Defined.

Lemma GetChainInfo_outcomes_witness :
  exists info,
    GetChainInfo nat unit sample_BitcoinGetChainInfo sample_Call_ResGetInfo
      sample_Call_ResGetMasternodeCount 0%nat = (Some info, None, 3%nat)
    /\ rpc.MasternodeCount info = 10
    /\ rpc.NextSuperBlock info = 129600.
Proof.
  destruct (GetChainInfo_outcomes nat unit sample_BitcoinGetChainInfo sample_Call_ResGetInfo
              sample_Call_ResGetMasternodeCount 0%nat) as [_ H].
  destruct (H _ _ _ _ _ eq_refl eq_refl) as (_ & _ & Hmc).
  destruct (Hmc _ _ _ eq_refl eq_refl eq_refl) as (_ & _ & Hok).
  destruct (Hok eq_refl eq_refl) as (info & Hrun & Hcount & Hnext & _).
  exists info. split; [exact Hrun |]. split; [exact Hcount | exact Hnext].
Defined.

(** ** Chain parameters *)

(** A registry with no network in it is a good registry state. *)
Lemma registry_ok_empty : registry_ok ∅.
Proof.
  unfold registry_ok. intros H. apply not_elem_of_empty in H. contradiction.
Qed.


Lemma MainNetParams_not_TestNetParams : MainNetParams <> TestNetParams.
Proof. discriminate. Qed.

(** One call from a good registry state returns by name and leaves a good
    registry state with both networks known. *)
Lemma GetChainParams_returns (chain : string) (registeredNets : gset Z) :
  registry_ok registeredNets ->
  exists registeredNets',
    registry_ok registeredNets'
    /\ MainnetMagic ∈ registeredNets'
    /\ GetChainParams chain registeredNets
       = (Returns (if String.eqb chain "test" then TestNetParams else MainNetParams),
          registeredNets').
Proof.
  intros Hok. unfold GetChainParams, chaincfg.IsRegistered, chaincfg.Register.
  change (chaincfg.Net MainNetParams) with MainnetMagic.
  change (chaincfg.Net TestNetParams) with TestnetMagic.
  destruct (bool_decide (MainnetMagic ∈ registeredNets)) eqn:Hmain; cbn [negb].
  - apply bool_decide_eq_true in Hmain.
    exists registeredNets. split; [exact Hok |]. split; [exact Hmain | reflexivity].
  - apply bool_decide_eq_false in Hmain.
    assert (Htest : TestnetMagic ∉ registeredNets) by (intros H; apply Hmain, Hok, H).
    assert (Htest' : TestnetMagic ∉ ({[MainnetMagic]} ∪ registeredNets : gset Z)).
    { intros H. apply elem_of_union in H as [H | H]; [| contradiction].
      apply elem_of_singleton in H. discriminate H. }
    rewrite (bool_decide_eq_false_2 _ Htest'). cbv iota beta.
    exists ({[TestnetMagic]} ∪ ({[MainnetMagic]} ∪ registeredNets)).
    split; [intros _; set_solver |]. split; [set_solver | reflexivity].
Qed.




(** From a good registry state any sequence of calls returns by name, call
    after call. *)
Lemma GetChainParams_calls_from_good_registry (chains : list string) :
  forall registeredNets : gset Z,
    registry_ok registeredNets ->
    GetChainParams_calls chains registeredNets
    = map (fun chain =>
             Returns (if String.eqb chain "test" then TestNetParams else MainNetParams))
        chains.
Proof.
  induction chains as [| chain rest IH]; intros reg Hok; [reflexivity |].
  cbn [GetChainParams_calls map].
  destruct (GetChainParams_returns chain reg Hok) as (reg' & Hok' & _ & ->).
  rewrite (IH reg' Hok'). reflexivity.
Qed.

Corollary GetChainParams_calls_from_empty_registry (chains : list string) :
  GetChainParams_calls chains ∅
  = map (fun chain =>
           Returns (if String.eqb chain "test" then TestNetParams else MainNetParams))
      chains.
Proof. apply GetChainParams_calls_from_good_registry, registry_ok_empty. Qed.

(** Outside those registry states the call panics, whatever the name. *)
Example GetChainParams_duplicate_testnet (chain : string) :
  (GetChainParams chain {[TestnetMagic]}).1 = Panics ErrDuplicateNet.
Proof.
  unfold GetChainParams, chaincfg.IsRegistered, chaincfg.Register.
  change (chaincfg.Net MainNetParams) with MainnetMagic.
  change (chaincfg.Net TestNetParams) with TestnetMagic.
  rewrite bool_decide_eq_false_2 by (intros H; apply elem_of_singleton in H; discriminate H).
  cbn [negb].
  rewrite bool_decide_eq_true_2 by set_solver. reflexivity.
Qed.

(** * Further properties *)

(** ** Shape of a transaction decoded from the wire *)

Lemma TxFromMsgTx_vin_length (t : wire.MsgTx.t) (ins : list wire.TxIn.t) :
  length (TxFromMsgTx_vin t ins) = length ins.
Proof.
  induction ins as [| in_ rest IH]; [reflexivity |].
  cbn [TxFromMsgTx_vin].
  destruct (negb (isZeroCoinSpendScript (wire.TxIn.SignatureScript in_)) && IsCoinBaseTx t).
  - cbn [length]. rewrite length_replicate. reflexivity.
  - cbn [length]. rewrite IH. reflexivity.
Qed.

(** Without a baseline coinbase, no input takes the coinbase branch. *)
Lemma TxFromMsgTx_vin_no_coinbase (t : wire.MsgTx.t) (ins : list wire.TxIn.t) :
  IsCoinBaseTx t = false ->
  TxFromMsgTx_vin t ins
  = map (fun in_ =>
           bchain.Vin.mk ""
             (Hash_String (wire.OutPoint.Hash (wire.TxIn.PreviousOutPoint in_)))
             (wire.OutPoint.Index (wire.TxIn.PreviousOutPoint in_))
             (bchain.ScriptSig.mk (EncodeToString (wire.TxIn.SignatureScript in_)))
             (wire.TxIn.Sequence in_)) ins.
Proof.
  intros Hcb. induction ins as [| in_ rest IH]; [reflexivity |].
  cbn [TxFromMsgTx_vin map]. rewrite Hcb, andb_false_r, IH. reflexivity.
Qed.

(** The exact entry the output loop writes at each position. *)
Lemma TxFromMsgTx_vout_entry (p : DogeCParser) (t : wire.MsgTx.t)
    (parseAddresses : bool) (outs : list wire.TxOut.t) :
  forall (i0 i : nat) (out : wire.TxOut.t),
    outs !! i = Some out ->
    TxFromMsgTx_vout p t parseAddresses i0 outs !! i
    = Some (bchain.Vout.mk (wire.TxOut.Value out) ""
              (wrap_uint32 (Z.of_nat (i0 + i)))
              (bchain.ScriptPubKey.mk
                 (if String.eqb (EncodeToString (wire.TxOut.PkScript out)) ""
                  then if coinbase_sentinel_cond t
                       then Sprintf_02x CBASE_ADDR_INT
                       else Sprintf_02x CSTAKE_ADDR_INT
                  else EncodeToString (wire.TxOut.PkScript out))
                 (if parseAddresses
                  then (OutputScriptToAddressesFunc p (wire.TxOut.PkScript out)).1.1
                  else []))).
Proof.
  induction outs as [| o outs IH]; intros i0 i out Hout; [discriminate |].
  destruct i as [| i].
  - injection Hout as ->. cbn [TxFromMsgTx_vout]. rewrite Nat.add_0_r.
    destruct parseAddresses; [| reflexivity].
    destruct (OutputScriptToAddressesFunc p (wire.TxOut.PkScript out)) as [[a r] e].
    reflexivity.
  - cbn [TxFromMsgTx_vout]. change ((?x :: ?l) !! S i) with (l !! i).
    rewrite (IH (S i0) i out Hout).
    replace (S i0 + i)%nat with (i0 + S i)%nat by lia. reflexivity.
Qed.

Lemma TxFromMsgTx_vout_length (p : DogeCParser) (t : wire.MsgTx.t)
    (parseAddresses : bool) (outs : list wire.TxOut.t) :
  forall i0, length (TxFromMsgTx_vout p t parseAddresses i0 outs) = length outs.
Proof.
  induction outs as [| o outs IH]; intros i0; [reflexivity |].
  cbn [TxFromMsgTx_vout length]. rewrite IH. reflexivity.
Qed.

Section DecodedTx.

Variable TxHash : wire.MsgTx.t -> list byte.
Variable p : DogeCParser.

(** X1. A decoded transaction has as many inputs and outputs as the wire
    transaction, also on the coinbase branch that leaves the input loop
    early; version, lock time and identifier are carried over and the raw
    hex is left empty. *)
Theorem TxFromMsgTx_shape (t : wire.MsgTx.t) (parseAddresses : bool) :
  let tx := TxFromMsgTx TxHash p t parseAddresses in
  length (bchain.Tx.Vin tx) = length (wire.MsgTx.TxIn t)
  /\ length (bchain.Tx.Vout tx) = length (wire.MsgTx.TxOut t)
  /\ bchain.Tx.Version tx = wire.MsgTx.Version t
  /\ bchain.Tx.LockTime tx = wire.MsgTx.LockTime t
  /\ bchain.Tx.Txid tx = Hash_String (TxHash t)
  /\ bchain.Tx.Hex tx = ""%string.
Proof.
  cbv zeta. unfold TxFromMsgTx. cbn.
  rewrite TxFromMsgTx_vin_length, TxFromMsgTx_vout_length. repeat split.
Qed.

(** X2. No input is lost to the early exit of the input loop: every
    input of the wire transaction is decoded at its own position with its
    sequence, either as the coinbase marker (baseline coinbase, script not
    a coin-spend: the script hex in the coinbase field, no txid) or as a
    reference to the previous output (txid, index, script hex). *)
Theorem TxFromMsgTx_every_input_decoded
    (t : wire.MsgTx.t) (parseAddresses : bool) (i : nat) (in_ : wire.TxIn.t) :
  wire.MsgTx.TxIn t !! i = Some in_ ->
  exists vin,
    bchain.Tx.Vin (TxFromMsgTx TxHash p t parseAddresses) !! i = Some vin
    /\ bchain.Vin.Sequence vin = wire.TxIn.Sequence in_
    /\ ((IsCoinBaseTx t = true
         /\ isZeroCoinSpendScript (wire.TxIn.SignatureScript in_) = false
         /\ bchain.Vin.Coinbase vin = EncodeToString (wire.TxIn.SignatureScript in_)
         /\ bchain.Vin.Txid vin = ""%string
         /\ bchain.ScriptSig.Hex (bchain.Vin.ScriptSig vin) = ""%string)
        \/ ((IsCoinBaseTx t = false
             \/ isZeroCoinSpendScript (wire.TxIn.SignatureScript in_) = true)
            /\ bchain.Vin.Coinbase vin = ""%string
            /\ bchain.Vin.Txid vin
               = Hash_String (wire.OutPoint.Hash (wire.TxIn.PreviousOutPoint in_))
            /\ bchain.Vin.Vout vin = wire.OutPoint.Index (wire.TxIn.PreviousOutPoint in_)
            /\ bchain.ScriptSig.Hex (bchain.Vin.ScriptSig vin)
               = EncodeToString (wire.TxIn.SignatureScript in_))).
Proof.
  intros Hin. unfold TxFromMsgTx. cbn [bchain.Tx.Vin].
  destruct (IsCoinBaseTx t) eqn:Hcb.
  - destruct (IsCoinBaseTx_one_input t Hcb) as [in0 Hone].
    rewrite Hone in Hin |- *. destruct i as [| i]; [| destruct i; discriminate Hin].
    injection Hin as ->. cbn [TxFromMsgTx_vin]. rewrite Hcb, andb_true_r.
    destruct (isZeroCoinSpendScript (wire.TxIn.SignatureScript in_)) eqn:Hsp; cbn [negb].
    + eexists. split; [reflexivity |]. split; [reflexivity |]. right.
      split; [now right |]. repeat split.
    + eexists. split; [reflexivity |]. split; [reflexivity |]. left. repeat split.
  - rewrite (TxFromMsgTx_vin_no_coinbase t _ Hcb), list_lookup_fmap, Hin.
    eexists. split; [reflexivity |]. split; [reflexivity |]. right.
    split; [now left |]. repeat split.
Qed.

(** X3. Every output is decoded at its own position with its value; its
    number is its position (below 2^32); a non-empty locking script is
    never replaced: its hex decodes back to the script bytes. *)
Theorem TxFromMsgTx_output_kept
    (t : wire.MsgTx.t) (parseAddresses : bool) (i : nat) (out : wire.TxOut.t) :
  wire.MsgTx.TxOut t !! i = Some out ->
  exists vout,
    bchain.Tx.Vout (TxFromMsgTx TxHash p t parseAddresses) !! i = Some vout
    /\ bchain.Vout.ValueSat vout = wire.TxOut.Value out
    /\ bchain.Vout.JsonValue vout = ""%string
    /\ (Z.of_nat i < 2 ^ 32 -> bchain.Vout.N vout = Z.of_nat i)
    /\ (wire.TxOut.PkScript out <> [] ->
        bchain.ScriptPubKey.Hex (bchain.Vout.ScriptPubKey vout)
        = EncodeToString (wire.TxOut.PkScript out)
        /\ DecodeString (bchain.ScriptPubKey.Hex (bchain.Vout.ScriptPubKey vout))
           = (wire.TxOut.PkScript out, None)).
Proof.
  intros Hout. unfold TxFromMsgTx. cbn [bchain.Tx.Vout].
  rewrite (TxFromMsgTx_vout_entry p t parseAddresses _ 0%nat i out Hout).
  eexists. split; [reflexivity |].
  cbn [bchain.Vout.ValueSat bchain.Vout.JsonValue bchain.Vout.N
       bchain.Vout.ScriptPubKey bchain.ScriptPubKey.Hex].
  split; [reflexivity |]. split; [reflexivity |]. split.
  - intros Hi. unfold wrap_uint32. rewrite Nat.add_0_l. apply Z.mod_small. lia.
  - intros Hne.
    destruct (String.eqb_spec (EncodeToString (wire.TxOut.PkScript out)) "") as [He | _].
    + apply EncodeToString_empty in He. contradiction.
    + split; [reflexivity | apply DecodeString_EncodeToString].
Qed.

(** X4. Address lists of the outputs: empty for every output when address
    resolution is off; otherwise the labels the parser's resolver gives
    for the script as it came from the wire (an empty script is resolved
    before the sentinel is substituted). *)
Theorem TxFromMsgTx_output_addresses
    (t : wire.MsgTx.t) (parseAddresses : bool) (i : nat) (out : wire.TxOut.t) :
  wire.MsgTx.TxOut t !! i = Some out ->
  exists vout,
    bchain.Tx.Vout (TxFromMsgTx TxHash p t parseAddresses) !! i = Some vout
    /\ (parseAddresses = false ->
        bchain.ScriptPubKey.Addresses (bchain.Vout.ScriptPubKey vout) = [])
    /\ (parseAddresses = true ->
        bchain.ScriptPubKey.Addresses (bchain.Vout.ScriptPubKey vout)
        = (OutputScriptToAddressesFunc p (wire.TxOut.PkScript out)).1.1).
Proof.
  intros Hout. unfold TxFromMsgTx. cbn [bchain.Tx.Vout].
  rewrite (TxFromMsgTx_vout_entry p t parseAddresses _ 0%nat i out Hout).
  eexists. split; [reflexivity |].
  cbn [bchain.Vout.ScriptPubKey bchain.ScriptPubKey.Addresses].
  split; intros ->; reflexivity.
Qed.

(** X5. The sentinel written for an empty locking script is read back by
    the classifier: the script hex of such an output decodes to a script
    that [outputScriptToAddresses] labels "CoinBase TX" when the
    transaction is a baseline coinbase whose input is not a coin-spend,
    and "CoinStake TX" otherwise, unresolved and without error. *)
Theorem TxFromMsgTx_sentinel_reclassified
    (t : wire.MsgTx.t) (parseAddresses : bool) (i : nat) (out : wire.TxOut.t) :
  wire.MsgTx.TxOut t !! i = Some out ->
  wire.TxOut.PkScript out = [] ->
  exists vout,
    bchain.Tx.Vout (TxFromMsgTx TxHash p t parseAddresses) !! i = Some vout
    /\ outputScriptToAddresses p
         (DecodeString (bchain.ScriptPubKey.Hex (bchain.Vout.ScriptPubKey vout))).1
       = ([if coinbase_sentinel_cond t then CBASE_LABEL else CSTAKE_LABEL], false, None).
Proof.
  intros Hout Hempty. unfold TxFromMsgTx. cbn [bchain.Tx.Vout].
  rewrite (TxFromMsgTx_vout_entry p t parseAddresses _ 0%nat i out Hout).
  eexists. split; [reflexivity |].
  cbn [bchain.Vout.ScriptPubKey bchain.ScriptPubKey.Hex].
  rewrite Hempty. cbn [EncodeToString String.eqb].
  destruct (coinbase_sentinel_cond t); reflexivity.
Qed.

(** X6. The two coinbase tests meet on a decoded transaction: when the
    wire transaction is a baseline coinbase whose script is not a
    coin-spend, the JSON-side test [isCoinbaseTx] accepts the decoded
    transaction exactly when the script is non-empty and the sequence is
    0xffffffff; in every other case it rejects it. *)
Theorem isCoinbaseTx_of_TxFromMsgTx (t : wire.MsgTx.t) (parseAddresses : bool) :
  isCoinbaseTx (TxFromMsgTx TxHash p t parseAddresses) = true
  <-> exists in0,
      wire.MsgTx.TxIn t = [in0]
      /\ IsCoinBaseTx t = true
      /\ isZeroCoinSpendScript (wire.TxIn.SignatureScript in0) = false
      /\ wire.TxIn.SignatureScript in0 <> []
      /\ wire.TxIn.Sequence in0 = MaxUint32.
Proof.
  rewrite isCoinbaseTx_spec. unfold TxFromMsgTx. cbn [bchain.Tx.Vin]. split.
  - intros (vin0 & Hvin & Hcoinbase & Hseq).
    assert (Hlen : length (wire.MsgTx.TxIn t) = 1%nat)
      by (rewrite <- TxFromMsgTx_vin_length with (t := t), Hvin; reflexivity).
    destruct (wire.MsgTx.TxIn t) as [| in0 [| in1 rest]] eqn:Hins; try discriminate Hlen.
    exists in0. split; [reflexivity |]. cbn [TxFromMsgTx_vin] in Hvin.
    destruct (isZeroCoinSpendScript (wire.TxIn.SignatureScript in0)) eqn:Hsp;
      destruct (IsCoinBaseTx t) eqn:Hcb; cbn [negb andb] in Hvin;
      injection Hvin as <-; cbn in Hcoinbase, Hseq; try congruence.
    repeat split; try assumption.
    intros He. apply Hcoinbase. rewrite He. reflexivity.
  - intros (in0 & Hins & Hcb & Hsp & Hne & Hseq).
    rewrite Hins. cbn [TxFromMsgTx_vin]. rewrite Hsp, Hcb. cbn [negb andb replicate length].
    eexists. split; [reflexivity |]. cbn. split; [| exact Hseq].
    intros He. apply EncodeToString_empty in He. contradiction.
Qed.

End DecodedTx.

(** ** Script predicates and the coin-spend value *)

(** X7. The four script tests of the classifier exclude one another: no
    script passes two of them, so at most one special label applies and
    the order of the tests cannot change the answer. *)
Theorem script_predicates_disjoint (s : list byte) :
  (isZeroCoinSpendScript s = true ->
   isZeroCoinMintScript s = false /\ isCoinBaseFakeAddr s = false
   /\ isCoinStakeFakeAddr s = false)
  /\ (isZeroCoinMintScript s = true ->
      isCoinBaseFakeAddr s = false /\ isCoinStakeFakeAddr s = false)
  /\ (isCoinBaseFakeAddr s = true -> isCoinStakeFakeAddr s = false).
Proof.
  unfold isZeroCoinSpendScript, isZeroCoinMintScript, isCoinBaseFakeAddr,
    isCoinStakeFakeAddr, first_byte_is.
  destruct s as [| b0 s']; [repeat split; discriminate |].
  assert (Hlong : forall n, (n <= length (b0 :: s'))%nat -> (1 < n)%nat ->
                            (length (b0 :: s') =? 1)%nat = false)
    by (intros n Hn H1; apply Nat.eqb_neq; lia).
  split; [| split].
  - intros H. apply andb_true_iff in H as [Hl H].
    apply Nat.leb_le in Hl. apply Byte.byte_dec_bl in H. subst b0.
    rewrite (Hlong 100%nat Hl ltac:(lia)). cbn [andb].
    split; [apply andb_false_r | split; reflexivity].
  - intros H. apply andb_true_iff in H as [Hl _]. apply Nat.ltb_lt in Hl.
    rewrite (Hlong 2%nat ltac:(lia) ltac:(lia)). split; reflexivity.
  - intros H. apply andb_true_iff in H as [_ H]. apply Byte.byte_dec_bl in H. subst b0.
    apply andb_false_r.
Qed.

(** The three behaviours of the value decoder, by the bytes present. *)
Lemma GetValueSatFromZerocoinSpend_reads (op len : byte) (proof rest : list byte)
    (d0 d1 d2 d3 : byte) :
  byte_val len = Z.of_nat (length proof) ->
  GetValueSatFromZerocoinSpend (op :: len :: proof ++ [d0; d1; d2; d3] ++ rest)
  = Ok ((byte_val d0 + 2 ^ 8 * byte_val d1 + 2 ^ 16 * byte_val d2
         + 2 ^ 24 * byte_val d3) * 10 ^ 8).
Proof.
  intros Hlen.
  unfold GetValueSatFromZerocoinSpend, rd_eval, rd_bind, Uint8, Uint32_LittleEndian.
  unfold NewReader, Seek_SeekCurrent at 1. simpl rd_i. simpl rd_s.
  change (0 + 1 <? 0) with false. cbv iota.
  unfold rd_bind.
  rewrite (ReadFull_enough 1 _ 1) by (simpl; lia).
  simpl drop. simpl take. unfold rd_ret.
  rewrite le_combine_1.
  pose proof (byte_val_range len) as Hr.
  rewrite (wrap_int64_small (byte_val len)) by lia.
  unfold Seek_SeekCurrent. simpl rd_i. simpl rd_s.
  destruct (Z.ltb_spec (Z.of_nat 1 + Z.of_nat 1 + byte_val len) 0) as [Hneg | _]; [lia |].
  rewrite Hlen.
  replace (Z.of_nat 1 + Z.of_nat 1 + Z.of_nat (length proof))
    with (Z.of_nat (2 + length proof)) by lia.
  rewrite (ReadFull_enough 4) by (simpl; rewrite ?length_app; simpl; lia).
  match goal with
  | |- context [drop (2 + length proof) (op :: len :: ?l)] =>
      change (drop (2 + length proof) (op :: len :: l)) with (drop (length proof) l)
  end.
  rewrite drop_app_length. simpl take.
  pose proof (le_combine_range [d0; d1; d2; d3]) as Hd.
  change (2 ^ (8 * Z.of_nat (length [d0; d1; d2; d3]))) with (2 ^ 32) in Hd.
  rewrite le_combine_4 in Hd |- *.
  cbn [fst]. rewrite denom_times_1e8_no_overflow by exact Hd.
  reflexivity.
Qed.

Lemma GetValueSatFromZerocoinSpend_no_length_byte (buf : list byte) :
  (length buf < 2)%nat -> exists e, GetValueSatFromZerocoinSpend buf = Err e.
Proof.
  intros Hlen.
  unfold GetValueSatFromZerocoinSpend, rd_eval, rd_bind, Uint8.
  unfold NewReader, Seek_SeekCurrent at 1. simpl rd_i. simpl rd_s.
  change (0 + 1 <? 0) with false. cbv iota. unfold rd_bind.
  destruct (ReadFull_short 1 buf (0 + 1)) as (e & r' & ->); [lia | lia | lia |].
  simpl. eauto.
Qed.

Lemma GetValueSatFromZerocoinSpend_truncated_proof (op len : byte) (rest : list byte) :
  Z.of_nat (length rest) < byte_val len + 4 ->
  exists e, GetValueSatFromZerocoinSpend (op :: len :: rest) = Err e.
Proof.
  intros Hlen.
  unfold GetValueSatFromZerocoinSpend, rd_eval, rd_bind, Uint8, Uint32_LittleEndian.
  unfold NewReader, Seek_SeekCurrent at 1. simpl rd_i. simpl rd_s.
  change (0 + 1 <? 0) with false. cbv iota. unfold rd_bind.
  rewrite (ReadFull_enough 1 _ 1) by (simpl; lia).
  simpl drop. simpl take. unfold rd_ret. rewrite le_combine_1.
  pose proof (byte_val_range len) as Hr.
  rewrite (wrap_int64_small (byte_val len)) by lia.
  unfold Seek_SeekCurrent. simpl rd_i. simpl rd_s.
  destruct (Z.ltb_spec (Z.of_nat 1 + Z.of_nat 1 + byte_val len) 0) as [Hneg | _]; [lia |].
  destruct (ReadFull_short 4 (op :: len :: rest)
              (Z.of_nat 1 + Z.of_nat 1 + byte_val len)) as (e & r' & ->);
    [lia | lia | simpl length; lia |].
  simpl. eauto.
Qed.

(** The value decoder in terms of the bytes after the opcode. *)
Lemma GetValueSatFromZerocoinSpend_cases (buf : list byte) :
  (exists op len rest d0 d1 d2 d3 tail,
      buf = op :: len :: rest
      /\ drop (Z.to_nat (byte_val len)) rest = d0 :: d1 :: d2 :: d3 :: tail
      /\ GetValueSatFromZerocoinSpend buf
         = Ok ((byte_val d0 + 2 ^ 8 * byte_val d1 + 2 ^ 16 * byte_val d2
                + 2 ^ 24 * byte_val d3) * 10 ^ 8))
  \/ ((length buf < 2)%nat /\ exists e, GetValueSatFromZerocoinSpend buf = Err e)
  \/ (exists op len rest,
        buf = op :: len :: rest
        /\ Z.of_nat (length rest) < byte_val len + 4
        /\ exists e, GetValueSatFromZerocoinSpend buf = Err e).
Proof.
  pose proof GetValueSatFromZerocoinSpend_reads as Hok.
  pose proof GetValueSatFromZerocoinSpend_no_length_byte as Hshort.
  pose proof GetValueSatFromZerocoinSpend_truncated_proof as Htrunc.
  destruct buf as [| op [| len rest]].
  - right. left. split; [simpl; lia | apply Hshort; simpl; lia].
  - right. left. split; [simpl; lia | apply Hshort; simpl; lia].
  - pose proof (byte_val_range len) as Hr.
    destruct (Z.lt_ge_cases (Z.of_nat (length rest)) (byte_val len + 4)) as [Hlt | Hge].
    + right. right. exists op, len, rest. split; [reflexivity |]. split; [exact Hlt |].
      apply Htrunc. exact Hlt.
    + left.
      assert (Hsplit : rest = take (Z.to_nat (byte_val len)) rest
                              ++ drop (Z.to_nat (byte_val len)) rest)
        by (symmetry; apply take_drop).
      assert (Hdl : (4 <= length (drop (Z.to_nat (byte_val len)) rest))%nat)
        by (rewrite length_drop; lia).
      destruct (drop (Z.to_nat (byte_val len)) rest)
        as [| d0 [| d1 [| d2 [| d3 tail]]]] eqn:Hdrop; try (simpl in Hdl; lia).
      exists op, len, rest, d0, d1, d2, d3, tail.
      split; [reflexivity |]. split; [exact Hdrop |].
      rewrite Hsplit at 1.
      apply (Hok op len (take (Z.to_nat (byte_val len)) rest) tail d0 d1 d2 d3).
      rewrite length_take. lia.
Qed.

(** X8. The value decoder succeeds exactly on the buffers that hold,
    after the opcode and the length byte [len], at least [len + 4] more
    bytes; the opcode itself is never looked at. *)
Theorem GetValueSatFromZerocoinSpend_succeeds_iff (buf : list byte) :
  (exists value, GetValueSatFromZerocoinSpend buf = Ok value)
  <-> exists op len rest,
      buf = op :: len :: rest /\ byte_val len + 4 <= Z.of_nat (length rest).
Proof.
  destruct (GetValueSatFromZerocoinSpend_cases buf)
    as [(op & len & rest & d0 & d1 & d2 & d3 & tail & -> & Hdrop & Hval)
       | [[Hlen [e He]] | (op & len & rest & -> & Hlt & e & He)]].
  - split; [| eauto]. intros _. exists op, len, rest. split; [reflexivity |].
    assert (Hl : (4 <= length (drop (Z.to_nat (byte_val len)) rest))%nat)
      by (rewrite Hdrop; simpl; lia).
    rewrite length_drop in Hl. pose proof (byte_val_range len). lia.
  - split.
    + intros [v Hv]. congruence.
    + intros (op & len & rest & -> & _). simpl in Hlen. lia.
  - split.
    + intros [v Hv]. congruence.
    + intros (op' & len' & rest' & Heq & Hge). injection Heq as -> -> ->. lia.
Qed.

(** X9. A decoded coin-spend value is a multiple of 10^8 between 0 and
    (2^32 - 1) * 10^8: it is never negative and the int64 product of
    the decoder never wraps around. *)
Theorem GetValueSatFromZerocoinSpend_value_range (buf : list byte) (value : Z) :
  GetValueSatFromZerocoinSpend buf = Ok value ->
  0 <= value <= (2 ^ 32 - 1) * 10 ^ 8
  /\ (10 ^ 8 | value)
  /\ value < 2 ^ 63.
Proof.
  intros Hv.
  destruct (GetValueSatFromZerocoinSpend_cases buf)
    as [(op & len & rest & d0 & d1 & d2 & d3 & tail & -> & Hdrop & Hval)
       | [[Hlen [e He]] | (op & len & rest & -> & Hlt & e & He)]];
    try congruence.
  rewrite Hval in Hv. injection Hv as <-.
  pose proof (byte_val_range d0). pose proof (byte_val_range d1).
  pose proof (byte_val_range d2). pose proof (byte_val_range d3).
  split; [lia |]. split; [| lia].
  exists (byte_val d0 + 2 ^ 8 * byte_val d1 + 2 ^ 16 * byte_val d2 + 2 ^ 24 * byte_val d3).
  reflexivity.
Qed.

(** X10. Bytes after the denomination do not matter: a buffer that
    decodes keeps its value when anything is appended to it. *)
Theorem GetValueSatFromZerocoinSpend_ignores_trailing_bytes
    (buf extra : list byte) (value : Z) :
  GetValueSatFromZerocoinSpend buf = Ok value ->
  GetValueSatFromZerocoinSpend (buf ++ extra) = Ok value.
Proof.
  intros Hv.
  destruct (GetValueSatFromZerocoinSpend_cases buf)
    as [(op & len & rest & d0 & d1 & d2 & d3 & tail & -> & Hdrop & Hval)
       | [[Hlen [e He]] | (op & len & rest & -> & Hlt & e & He)]];
    try congruence.
  rewrite Hval in Hv. injection Hv as <-.
  assert (Hl : (4 <= length (drop (Z.to_nat (byte_val len)) rest))%nat)
    by (rewrite Hdrop; simpl; lia).
  rewrite length_drop in Hl.
  assert (Hrest : rest = take (Z.to_nat (byte_val len)) rest
                         ++ [d0; d1; d2; d3] ++ tail)
    by (rewrite <- (take_drop (Z.to_nat (byte_val len)) rest) at 1; rewrite Hdrop; reflexivity).
  change ((op :: len :: rest) ++ extra) with (op :: len :: rest ++ extra).
  rewrite Hrest, <- !app_assoc.
  change ([d0; d1; d2; d3] ++ tail ++ extra) with ([d0; d1; d2; d3] ++ (tail ++ extra)).
  apply GetValueSatFromZerocoinSpend_reads.
  rewrite length_take. pose proof (byte_val_range len). lia.
Qed.

(** ** Inputs whose previous output is unknown *)

(** X11. For a non-negative index the address descriptor is always
    returned: ten zero bytes when the index is past the inputs or the
    script hex is empty, and otherwise the bytes the script hex decodes
    to (those before the first bad character, when the hex is malformed);
    a negative index passes the length test and panics. *)
Theorem GetAddrDescForUnknownInput_cases (tx : bchain.Tx.t) (input : Z) :
  (0 <= input ->
   exists desc,
     GetAddrDescForUnknownInput tx input = Returns desc
     /\ (Z.of_nat (length (bchain.Tx.Vin tx)) <= input -> desc = replicate 10 x00)
     /\ (forall vin,
           bchain.Tx.Vin tx !! Z.to_nat input = Some vin ->
           let scriptHex := bchain.ScriptSig.Hex (bchain.Vin.ScriptSig vin) in
           (scriptHex = ""%string -> desc = replicate 10 x00)
           /\ (scriptHex <> ""%string -> desc = (DecodeString scriptHex).1)))
  /\ (input < 0 -> GetAddrDescForUnknownInput tx input = Panics ErrIndexOutOfRange).
Proof.
  unfold GetAddrDescForUnknownInput. split.
  - intros Hnonneg.
    destruct (Z.gtb_spec (Z.of_nat (length (bchain.Tx.Vin tx))) input) as [Hin | Hout].
    + destruct (go_index_in_range (bchain.Tx.Vin tx) input) as (vin & Hl & ->); [lia |].
      destruct (String.eqb_spec (bchain.ScriptSig.Hex (bchain.Vin.ScriptSig vin)) "")
        as [Hempty | Hnonempty]; cbn [negb].
      * eexists. split; [reflexivity |]. split; [lia |].
        intros vin' Hl'. assert (vin' = vin) as -> by congruence. cbv zeta.
        split; [reflexivity | congruence].
      * destruct (DecodeString (bchain.ScriptSig.Hex (bchain.Vin.ScriptSig vin)))
          as [script err] eqn:Hdec.
        eexists. split; [reflexivity |]. split; [lia |].
        intros vin' Hl'. assert (vin' = vin) as -> by congruence. cbv zeta.
        rewrite Hdec. split; [congruence | reflexivity].
    + eexists. split; [reflexivity |]. split; [reflexivity |].
      intros vin Hl. apply lookup_lt_Some in Hl. lia.
  - intros Hneg.
    destruct (Z.gtb_spec (Z.of_nat (length (bchain.Tx.Vin tx))) input) as [_ | Hout]; [| lia].
    unfold go_index. destruct (Z.ltb_spec input 0) as [_ | Hge]; [reflexivity | lia].
Qed.

(** An input decoded as a reference carries the hex of its script. *)
Lemma TxFromMsgTx_reference_input (TxHash : wire.MsgTx.t -> list byte) (p : DogeCParser)
    (t : wire.MsgTx.t) (parseAddresses : bool) (i : nat) (in_ : wire.TxIn.t) :
  wire.MsgTx.TxIn t !! i = Some in_ ->
  IsCoinBaseTx t = false \/ isZeroCoinSpendScript (wire.TxIn.SignatureScript in_) = true ->
  exists vin,
    bchain.Tx.Vin (TxFromMsgTx TxHash p t parseAddresses) !! i = Some vin
    /\ bchain.ScriptSig.Hex (bchain.Vin.ScriptSig vin)
       = EncodeToString (wire.TxIn.SignatureScript in_).
Proof.
  intros Hin Href. unfold TxFromMsgTx. cbn [bchain.Tx.Vin].
  destruct (IsCoinBaseTx t) eqn:Hcb.
  - destruct Href as [Hf | Hsp]; [discriminate |].
    destruct (IsCoinBaseTx_one_input t Hcb) as [in0 Hone].
    rewrite Hone in Hin |- *. destruct i as [| i]; [| destruct i; discriminate Hin].
    injection Hin as ->. cbn [TxFromMsgTx_vin]. rewrite Hsp. cbn [negb andb].
    eexists. split; reflexivity.
  - rewrite (TxFromMsgTx_vin_no_coinbase t _ Hcb), list_lookup_fmap, Hin.
    eexists. split; reflexivity.
Qed.

(** An input decoded as the coinbase marker has an empty script hex. *)
Lemma TxFromMsgTx_coinbase_input (TxHash : wire.MsgTx.t -> list byte) (p : DogeCParser)
    (t : wire.MsgTx.t) (parseAddresses : bool) (i : nat) (in_ : wire.TxIn.t) :
  wire.MsgTx.TxIn t !! i = Some in_ ->
  IsCoinBaseTx t = true ->
  isZeroCoinSpendScript (wire.TxIn.SignatureScript in_) = false ->
  exists vin,
    bchain.Tx.Vin (TxFromMsgTx TxHash p t parseAddresses) !! i = Some vin
    /\ bchain.ScriptSig.Hex (bchain.Vin.ScriptSig vin) = ""%string.
Proof.
  intros Hin Hcb Hsp. unfold TxFromMsgTx. cbn [bchain.Tx.Vin].
  destruct (IsCoinBaseTx_one_input t Hcb) as [in0 Hone].
  rewrite Hone in Hin |- *. destruct i as [| i]; [| destruct i; discriminate Hin].
  injection Hin as ->. cbn [TxFromMsgTx_vin]. rewrite Hsp, Hcb. cbn [negb andb].
  eexists. split; reflexivity.
Qed.

(** Indexing with a position that holds an element. *)
Lemma go_index_lookup {A} (l : list A) (i : nat) (a : A) :
  l !! i = Some a ->
  (Z.of_nat (length l) >? Z.of_nat i) = true /\ go_index l (Z.of_nat i) = Returns a.
Proof.
  intros Hl. pose proof (lookup_lt_Some _ _ _ Hl) as Hlt. split.
  - apply Z.gtb_lt. lia.
  - destruct (go_index_in_range l (Z.of_nat i)) as (a' & Hl' & ->); [lia |].
    rewrite Nat2Z.id in Hl'. congruence.
Qed.

Section UnknownInputOfDecodedTx.

Variable TxHash : wire.MsgTx.t -> list byte.
Variable p : DogeCParser.

(** X12. Round trip through the decoder: for an input that is decoded as
    a reference to a previous output (the transaction is no baseline
    coinbase, or the script is a coin-spend) and has a non-empty script,
    the address descriptor of the decoded transaction at that position is
    the signature script of the wire input, byte for byte. *)
Theorem GetAddrDescForUnknownInput_of_TxFromMsgTx
    (t : wire.MsgTx.t) (parseAddresses : bool) (i : nat) (in_ : wire.TxIn.t) :
  wire.MsgTx.TxIn t !! i = Some in_ ->
  wire.TxIn.SignatureScript in_ <> [] ->
  IsCoinBaseTx t = false \/ isZeroCoinSpendScript (wire.TxIn.SignatureScript in_) = true ->
  GetAddrDescForUnknownInput (TxFromMsgTx TxHash p t parseAddresses) (Z.of_nat i)
  = Returns (wire.TxIn.SignatureScript in_).
Proof.
  intros Hin Hne Href.
  destruct (TxFromMsgTx_reference_input TxHash p t parseAddresses i in_ Hin Href)
    as (vin & Hl & Hhex).
  destruct (go_index_lookup _ _ _ Hl) as [Hgt Hidx].
  unfold GetAddrDescForUnknownInput. rewrite Hgt, Hidx, Hhex.
  destruct (String.eqb_spec (EncodeToString (wire.TxIn.SignatureScript in_)) "")
    as [He | _].
  - apply EncodeToString_empty in He. contradiction.
  - cbn [negb]. rewrite DecodeString_EncodeToString. reflexivity.
Qed.

(** X13. Value of an input of a decoded transaction: a coin-spend input
    carries the value its own script decodes to, zero when the proof is
    truncated; every other input, the coinbase marker included, carries
    zero. The call never panics at a position of the wire transaction. *)
Theorem GetValueSatForUnknownInput_of_TxFromMsgTx
    (t : wire.MsgTx.t) (parseAddresses : bool) (i : nat) (in_ : wire.TxIn.t) :
  wire.MsgTx.TxIn t !! i = Some in_ ->
  exists value log,
    GetValueSatForUnknownInput (TxFromMsgTx TxHash p t parseAddresses) (Z.of_nat i)
    = Returns (value, log)
    /\ (isZeroCoinSpendScript (wire.TxIn.SignatureScript in_) = false -> value = 0)
    /\ (isZeroCoinSpendScript (wire.TxIn.SignatureScript in_) = true ->
        (forall v, GetValueSatFromZerocoinSpend (wire.TxIn.SignatureScript in_) = Ok v ->
                   value = v)
        /\ (forall e, GetValueSatFromZerocoinSpend (wire.TxIn.SignatureScript in_) = Err e ->
                      value = 0)).
Proof.
  intros Hin.
  destruct (isZeroCoinSpendScript (wire.TxIn.SignatureScript in_)) eqn:Hsp.
  - destruct (TxFromMsgTx_reference_input TxHash p t parseAddresses i in_ Hin
                (or_intror Hsp)) as (vin & Hl & Hhex).
    destruct (go_index_lookup _ _ _ Hl) as [Hgt Hidx].
    unfold GetValueSatForUnknownInput. rewrite Hgt, Hidx, Hhex.
    destruct (String.eqb_spec (EncodeToString (wire.TxIn.SignatureScript in_)) "")
      as [He | _].
    + apply EncodeToString_empty in He. rewrite He in Hsp. discriminate Hsp.
    + cbn [negb]. rewrite DecodeString_EncodeToString, Hsp.
      destruct (GetValueSatFromZerocoinSpend (wire.TxIn.SignatureScript in_)) as [v | e].
      * exists v, []. split; [reflexivity |]. split; [discriminate |].
        intros _. split; [congruence | discriminate].
      * eexists 0, _. split; [reflexivity |]. split; [discriminate |].
        intros _. split; [discriminate | reflexivity].
  - assert (Hvin : exists vin,
               bchain.Tx.Vin (TxFromMsgTx TxHash p t parseAddresses) !! i = Some vin
               /\ (bchain.ScriptSig.Hex (bchain.Vin.ScriptSig vin) = ""%string
                   \/ bchain.ScriptSig.Hex (bchain.Vin.ScriptSig vin)
                      = EncodeToString (wire.TxIn.SignatureScript in_))).
    { destruct (IsCoinBaseTx t) eqn:Hcb.
      - destruct (TxFromMsgTx_coinbase_input TxHash p t parseAddresses i in_ Hin Hcb Hsp)
          as (vin & Hl & Hhex). eauto.
      - destruct (TxFromMsgTx_reference_input TxHash p t parseAddresses i in_ Hin
                    (or_introl Hcb)) as (vin & Hl & Hhex). eauto. }
    destruct Hvin as (vin & Hl & Hhex).
    destruct (go_index_lookup _ _ _ Hl) as [Hgt Hidx].
    unfold GetValueSatForUnknownInput. rewrite Hgt, Hidx.
    exists 0, []. split; [| split; [reflexivity | discriminate]].
    destruct Hhex as [-> | ->]; [reflexivity |].
    destruct (String.eqb (EncodeToString (wire.TxIn.SignatureScript in_)) "");
      cbn [negb]; [reflexivity |].
    rewrite DecodeString_EncodeToString, Hsp. reflexivity.
Qed.

End UnknownInputOfDecodedTx.

(** X14. The value of an unknown input is never negative and never above
    (2^32 - 1) * 10^8, whatever the transaction and the non-negative
    index. *)
Theorem GetValueSatForUnknownInput_value_range
    (tx : bchain.Tx.t) (input : Z) (value : Z) (log : list LogLine) :
  GetValueSatForUnknownInput tx input = Returns (value, log) ->
  0 <= value <= (2 ^ 32 - 1) * 10 ^ 8.
Proof.
  unfold GetValueSatForUnknownInput.
  destruct (Z.of_nat (length (bchain.Tx.Vin tx)) >? input);
    [| intros H; injection H as <- _; lia].
  destruct (go_index (bchain.Tx.Vin tx) input) as [vin | e]; [| discriminate].
  destruct (negb (String.eqb (bchain.ScriptSig.Hex (bchain.Vin.ScriptSig vin)) ""));
    [| intros H; injection H as <- _; lia].
  destruct (DecodeString (bchain.ScriptSig.Hex (bchain.Vin.ScriptSig vin))) as [script err].
  destruct (isZeroCoinSpendScript script); [| intros H; injection H as <- _; lia].
  destruct (GetValueSatFromZerocoinSpend script) as [v | e] eqn:Hv;
    [| intros H; injection H as <- _; lia].
  intros H. injection H as <- _.
  destruct (GetValueSatFromZerocoinSpend_cases script)
    as [(op & len & rest & d0 & d1 & d2 & d3 & tail & -> & Hdrop & Hval)
       | [[Hlen [e He]] | (op & len & rest & -> & Hlt & e & He)]];
    try congruence.
  rewrite Hval in Hv. injection Hv as <-.
  pose proof (byte_val_range d0). pose proof (byte_val_range d1).
  pose proof (byte_val_range d2). pose proof (byte_val_range d3). lia.
Qed.

(** ** The JSON path *)

Section JsonPath.

Variable Unmarshal : string -> result bchain.Tx.t.
Variable p : DogeCParser.



(** The loop stops with the error of the first amount that does not
    convert. *)
Lemma ParseTxFromJson_loop_first_error (before : list nat) :
  forall (tx : bchain.Tx.t) (i : nat) (after : list nat) (vout : bchain.Vout.t) (e : error),
    NoDup (before ++ i :: after) ->
    (forall j vj, j ∈ before -> bchain.Tx.Vout tx !! j = Some vj ->
                  exists v, AmountToBigInt p (bchain.Vout.JsonValue vj) = Ok v) ->
    bchain.Tx.Vout tx !! i = Some vout ->
    AmountToBigInt p (bchain.Vout.JsonValue vout) = Err e ->
    ParseTxFromJson_loop p tx (before ++ i :: after) = Err e.
Proof.
  induction before as [| j before IH]; intros tx i after vout e Hnd Hok Hl Herr.
  - cbn [app ParseTxFromJson_loop]. unfold ParseTxFromJson_step. rewrite Hl, Herr.
    reflexivity.
  - cbn [app] in Hnd |- *. apply NoDup_cons in Hnd as [Hj Hnd].
    cbn [ParseTxFromJson_loop].
    assert (Hji : j <> i) by (intros ->; apply Hj; apply elem_of_app; right; left).
    destruct (bchain.Tx.Vout tx !! j) as [vj |] eqn:Hvj.
    + destruct (Hok j vj (list_elem_of_here _ _) Hvj) as [v Hv].
      assert (Hstep : exists tx1, ParseTxFromJson_step p tx j = Ok tx1
                                  /\ forall k, j <> k ->
                                       bchain.Tx.Vout tx1 !! k = bchain.Tx.Vout tx !! k).
      { unfold ParseTxFromJson_step. rewrite Hvj, Hv. eexists. split; [reflexivity |].
        intros k Hjk. cbn [bchain.Tx.with_Vout bchain.Tx.Vout].
        now rewrite !list_lookup_insert_ne by exact Hjk. }
      destruct Hstep as (tx1 & -> & Hsame).
      apply (IH tx1 i after vout e Hnd).
      * intros k vk Hk Hlk. apply (Hok k vk); [now apply list_elem_of_further |].
        rewrite <- Hsame; [exact Hlk |]. intros ->. apply Hj. apply elem_of_app. now left.
      * rewrite Hsame by exact Hji. exact Hl.
      * exact Herr.
    + unfold ParseTxFromJson_step at 1. rewrite Hvj.
      apply (IH tx i after vout e Hnd); [| exact Hl | exact Herr].
      intros k vk Hk Hlk. apply (Hok k vk); [now apply list_elem_of_further | exact Hlk].
Qed.


(** X16. The JSON path fails with the error of [json.Unmarshal] when the
    message does not unmarshal, and otherwise with the error of the first
    output whose amount does not convert, however many later outputs
    there are. *)
Theorem ParseTxFromJson_errors (msg : string) :
  (forall e, Unmarshal msg = Err e -> ParseTxFromJson Unmarshal p msg = Err e)
  /\ (forall tx i vout e,
        Unmarshal msg = Ok tx ->
        bchain.Tx.Vout tx !! i = Some vout ->
        AmountToBigInt p (bchain.Vout.JsonValue vout) = Err e ->
        (forall j vj, (j < i)%nat -> bchain.Tx.Vout tx !! j = Some vj ->
                      exists v, AmountToBigInt p (bchain.Vout.JsonValue vj) = Ok v) ->
        ParseTxFromJson Unmarshal p msg = Err e).
Proof.
  split.
  - intros e Hum. unfold ParseTxFromJson. rewrite Hum. reflexivity.
  - intros tx i vout e Hum Hl Herr Hbefore. unfold ParseTxFromJson. rewrite Hum.
    pose proof (lookup_lt_Some _ _ _ Hl) as Hlt.
    replace (length (bchain.Tx.Vout tx))
      with (i + S (length (bchain.Tx.Vout tx) - S i))%nat by lia.
    rewrite seq_app. cbn [seq]. rewrite Nat.add_0_l.
    apply (ParseTxFromJson_loop_first_error (seq 0 i) tx i _ vout e).
    + replace (seq 0 i ++ i :: seq (S i) (length (bchain.Tx.Vout tx) - S i))
        with (seq 0 (i + S (length (bchain.Tx.Vout tx) - S i)))
        by (rewrite seq_app; reflexivity).
      apply NoDup_seq.
    + intros j vj Hj Hlj. apply (Hbefore j vj); [| exact Hlj].
      apply elem_of_seq in Hj. lia.
    + exact Hl.
    + exact Herr.
Qed.

End JsonPath.

(** ** Blocks and single transactions from raw bytes *)

(** A buffer shorter than the header makes the header read fail. *)
Lemma BlockHeader_Deserialize_short (b : list byte) :
  (length b < 80)%nat ->
  exists e r, BlockHeader_Deserialize (NewReader b) = (Err e, r).
Proof.
  intros Hlen.
  unfold BlockHeader_Deserialize, NewReader, rd_try, rd_bind, rd_ret.
  change 0 with (Z.of_nat 0).
  repeat match goal with
  | |- context [ReadFull ?n (mkReader b (Z.of_nat ?i))] =>
      destruct (ReadFull_cases n b i) as [[-> ?] | (? & ? & -> & ?)];
      [lia | | eauto]
  end.
  simpl in *. lia.
Qed.

Section RawBytes.

Variable TxHash : wire.MsgTx.t -> list byte.
Variable DecodeTransactions : RdM (result (list wire.MsgTx.t)).
Variable MsgTx_Deserialize : RdM (result wire.MsgTx.t).
Variable p : DogeCParser.

(** [ParseBlock] after a header that deserializes. *)
Lemma ParseBlock_after_header (b : list byte) (h : wire.BlockHeader.t) (r1 : Reader) :
  BlockHeader_Deserialize (NewReader b) = (Ok h, r1) ->
  ParseBlock TxHash DecodeTransactions p b
  = rd_eval (ParseBlock_body TxHash DecodeTransactions p b h)
      (mkReader b (if (wire.BlockHeader.Version h >? 3) && (wire.BlockHeader.Version h <? 7)
                   then 80 + 32 else 80)).
Proof.
  intros Hh.
  destruct (BlockHeader_Deserialize_ok b h r1 Hh) as (-> & _).
  unfold ParseBlock, rd_eval, rd_bind at 1. rewrite Hh. unfold rd_bind at 1.
  destruct ((wire.BlockHeader.Version h >? 3) && (wire.BlockHeader.Version h <? 7));
    reflexivity.
Qed.

(** X17. [ParseBlock] fails on every buffer shorter than the 80-byte
    header, with an error annotated "Deserialize"; when the header is
    read but the transaction list does not decode, the decoder's error
    comes back annotated "DecodeTransactions". No block is returned in
    either case. *)
Theorem ParseBlock_errors (b : list byte) :
  ((length b < 80)%nat ->
   exists e, ParseBlock TxHash DecodeTransactions p b = Err (Annotatef e "Deserialize"))
  /\ (forall h r1 e r3,
        BlockHeader_Deserialize (NewReader b) = (Ok h, r1) ->
        DecodeTransactions
          (mkReader b (if (wire.BlockHeader.Version h >? 3)
                          && (wire.BlockHeader.Version h <? 7)
                       then 80 + 32 else 80)) = (Err e, r3) ->
        ParseBlock TxHash DecodeTransactions p b = Err (Annotatef e "DecodeTransactions")).
Proof.
  split.
  - intros Hlen. destruct (BlockHeader_Deserialize_short b Hlen) as (e & r & He).
    exists e. unfold ParseBlock, rd_eval, rd_bind. rewrite He. reflexivity.
  - intros h r1 e r3 Hh Hdt. rewrite (ParseBlock_after_header b h r1 Hh).
    unfold ParseBlock_body, rd_eval, rd_bind. rewrite Hdt. reflexivity.
Qed.

(** X18. A buffer of at least 80 bytes whose transaction list decodes
    always gives a block: it holds one decoded transaction per wire
    transaction, in order, and since blocks are decoded without address
    resolution every output of every transaction has an empty address
    list. *)
Theorem ParseBlock_transactions (b : list byte) (h : wire.BlockHeader.t) (r1 : Reader)
    (transactions : list wire.MsgTx.t) (r3 : Reader) :
  BlockHeader_Deserialize (NewReader b) = (Ok h, r1) ->
  DecodeTransactions
    (mkReader b (if (wire.BlockHeader.Version h >? 3) && (wire.BlockHeader.Version h <? 7)
                 then 80 + 32 else 80)) = (Ok transactions, r3) ->
  exists block,
    ParseBlock TxHash DecodeTransactions p b = Ok block
    /\ length (bchain.Block.Txs block) = length transactions
    /\ (forall k t,
          transactions !! k = Some t ->
          exists tx,
            bchain.Block.Txs block !! k = Some tx
            /\ bchain.Tx.Txid tx = Hash_String (TxHash t)
            /\ length (bchain.Tx.Vin tx) = length (wire.MsgTx.TxIn t)
            /\ length (bchain.Tx.Vout tx) = length (wire.MsgTx.TxOut t)
            /\ forall i vout,
                bchain.Tx.Vout tx !! i = Some vout ->
                bchain.ScriptPubKey.Addresses (bchain.Vout.ScriptPubKey vout) = []).
Proof.
  intros Hh Hdt. rewrite (ParseBlock_after_header b h r1 Hh).
  unfold ParseBlock_body, rd_eval, rd_bind. rewrite Hdt. cbn [rd_ret fst].
  eexists. split; [reflexivity |]. cbn [bchain.Block.Txs].
  split; [apply length_map |].
  intros k t Hk. rewrite list_lookup_fmap, Hk. eexists. split; [reflexivity |].
  unfold TxFromMsgTx. cbn [bchain.Tx.Txid bchain.Tx.Vin bchain.Tx.Vout].
  rewrite TxFromMsgTx_vin_length, TxFromMsgTx_vout_length.
  repeat split.
  intros i vout Hv.
  assert (Hi : (i < length (wire.MsgTx.TxOut t))%nat)
    by (apply lookup_lt_Some in Hv; rewrite TxFromMsgTx_vout_length in Hv; exact Hv).
  destruct (lookup_lt_is_Some_2 _ _ Hi) as [out Hout].
  rewrite (TxFromMsgTx_vout_entry p t false _ 0%nat i out Hout) in Hv.
  injection Hv as <-. reflexivity.
Qed.

(** X19. [ParseTx] passes the error of the baseline deserializer on as it
    is; on success the raw hex of the result decodes back to the input
    buffer, and inputs, outputs and identifier are those of the decoder
    run with address resolution on. *)
Theorem ParseTx_result (b : list byte) :
  (forall e r, MsgTx_Deserialize (NewReader b) = (Err e, r) ->
               ParseTx TxHash MsgTx_Deserialize p b = Err e)
  /\ (forall t r,
        MsgTx_Deserialize (NewReader b) = (Ok t, r) ->
        exists tx,
          ParseTx TxHash MsgTx_Deserialize p b = Ok tx
          /\ DecodeString (bchain.Tx.Hex tx) = (b, None)
          /\ bchain.Tx.Txid tx = Hash_String (TxHash t)
          /\ bchain.Tx.Vin tx = bchain.Tx.Vin (TxFromMsgTx TxHash p t true)
          /\ bchain.Tx.Vout tx = bchain.Tx.Vout (TxFromMsgTx TxHash p t true)).
Proof.
  unfold ParseTx, rd_eval. split.
  - intros e r ->. reflexivity.
  - intros t r ->. eexists. split; [reflexivity |].
    cbn. split; [apply DecodeString_EncodeToString |]. repeat split.
Qed.

End RawBytes.

(** ** Registration and initialization *)

(** X20. Registration is idempotent: from a good registry state a call
    made when the mainnet magic is unknown adds exactly the two magics,
    a call made when it is known adds nothing (the testnet magic is then
    registered after the call only if it was before); either way the
    mainnet magic is registered afterwards and every later call leaves
    the registry as it is. *)
Theorem GetChainParams_registers_once (chain1 chain2 : string) (registeredNets : gset Z) :
  registry_ok registeredNets ->
  exists registeredNets',
    (GetChainParams chain1 registeredNets).2 = registeredNets'
    /\ MainnetMagic ∈ registeredNets'
    /\ (MainnetMagic ∉ registeredNets ->
        registeredNets' = {[TestnetMagic]} ∪ ({[MainnetMagic]} ∪ registeredNets))
    /\ (MainnetMagic ∈ registeredNets -> registeredNets' = registeredNets)
    /\ (TestnetMagic ∈ registeredNets'
        <-> MainnetMagic ∉ registeredNets \/ TestnetMagic ∈ registeredNets)
    /\ (GetChainParams chain2 registeredNets').2 = registeredNets'.
Proof.
  intros Hok.
  assert (Hknown : forall chain (reg : gset Z),
             MainnetMagic ∈ reg -> (GetChainParams chain reg).2 = reg).
  { intros chain reg Hin. unfold GetChainParams, chaincfg.IsRegistered.
    change (chaincfg.Net MainNetParams) with MainnetMagic.
    rewrite bool_decide_eq_true_2 by exact Hin. reflexivity. }
  destruct (decide (MainnetMagic ∈ registeredNets)) as [Hin | Hnin].
  - exists registeredNets. rewrite (Hknown chain1 _ Hin).
    split; [reflexivity |]. split; [exact Hin |]. split; [contradiction |].
    split; [reflexivity |].
    split; [split; [now right | intros [Hn | Ht]; [contradiction | exact Ht]] |].
    apply Hknown, Hin.
  - assert (Htest : TestnetMagic ∉ registeredNets) by (intros H; apply Hnin, Hok, H).
    assert (Htest' : TestnetMagic ∉ ({[MainnetMagic]} ∪ registeredNets : gset Z)).
    { intros H. apply elem_of_union in H as [H | H]; [| contradiction].
      apply elem_of_singleton in H. discriminate H. }
    exists ({[TestnetMagic]} ∪ ({[MainnetMagic]} ∪ registeredNets)).
    assert (Hrun : (GetChainParams chain1 registeredNets).2
                   = {[TestnetMagic]} ∪ ({[MainnetMagic]} ∪ registeredNets)).
    { unfold GetChainParams, chaincfg.IsRegistered, chaincfg.Register.
      change (chaincfg.Net MainNetParams) with MainnetMagic.
      change (chaincfg.Net TestNetParams) with TestnetMagic.
      rewrite (bool_decide_eq_false_2 _ Hnin). cbn [negb].
      rewrite (bool_decide_eq_false_2 _ Htest'). reflexivity. }
    assert (Hmain : MainnetMagic ∈ ({[TestnetMagic]} ∪ ({[MainnetMagic]} ∪ registeredNets) : gset Z)).
    { apply elem_of_union. right. apply elem_of_union. left.
      apply elem_of_singleton. reflexivity. }
    split; [exact Hrun |]. split; [exact Hmain |]. split; [reflexivity |].
    split; [contradiction |].
    split; [split; [now left | intros _; apply elem_of_union; left;
                                apply elem_of_singleton; reflexivity] |].
    apply Hknown. exact Hmain.
Qed.

Section InitializeProperties.

Variable World : Type.
Variable GetChainInfoAndInitializeMempool : World -> result string * World.
Variable NewBitcoinParser :
  chaincfg.Params -> (string -> result Z) * (list byte -> AddressesResult).

(** X21. [Initialize] returns the error of the chain-info call without
    touching its state or the registry; otherwise, from a good registry
    state, it succeeds and the network is set by the reported chain name
    alone: testnet for the name "test", livenet for every other name. The
    parser it installs is the one [NewDogeCParser] builds over the
    Bitcoin parser of the chosen parameter set, so its address resolver
    is the DogeC classifier on every script. *)
Theorem Initialize_network (b : RPCState) (w w' : World) (registeredNets : gset Z)
    (r : result string) :
  GetChainInfoAndInitializeMempool w = (r, w') ->
  (forall e, r = Err e ->
             Initialize World GetChainInfoAndInitializeMempool NewBitcoinParser
               b w registeredNets
             = (Returns (Some e, b), w', registeredNets))
  /\ (forall chainName,
        r = Ok chainName -> registry_ok registeredNets ->
        let params := if String.eqb chainName "test" then TestNetParams else MainNetParams in
        let parser :=
          NewDogeCParser (NewBitcoinParser params).1 (NewBitcoinParser params).2 in
        (exists registeredNets',
            Initialize World GetChainInfoAndInitializeMempool NewBitcoinParser
              b w registeredNets
            = (Returns (None,
                        mkRPCState (Some parser)
                          (String.eqb chainName "test")
                          (if String.eqb chainName "test" then "testnet" else "livenet")),
               w', registeredNets'))
        /\ (forall script,
              OutputScriptToAddressesFunc parser script
              = outputScriptToAddresses parser script)
        /\ BitcoinOutputScriptToAddressesFunc parser = (NewBitcoinParser params).2).
Proof.
  intros Hcall. unfold Initialize. rewrite Hcall. split.
  - intros e ->. reflexivity.
  - intros chainName -> Hok. cbv zeta.
    destruct (GetChainParams_returns chainName registeredNets Hok) as (reg' & _ & _ & ->).
    split; [| split; [intros script |]; reflexivity].
    exists reg'. destruct (String.eqb chainName "test"); reflexivity.
Qed.

End InitializeProperties.

(** ** Superblock heights *)

Lemma GetNextSuperBlock_value (h : Z) :
  0 <= h -> h - h mod 43200 + 43200 <= MaxInt ->
  GetNextSuperBlock h = h - h mod 43200 + 43200.
Proof.
  intros Hh Hfit. unfold GetNextSuperBlock, go_rem, nBlocksPerPeriod.
  rewrite Z.rem_mod_nonneg by lia.
  pose proof (Z.mod_pos_bound h 43200 ltac:(lia)) as Hm.
  rewrite (wrap_int_small (h - h mod 43200)) by (rewrite MaxInt_value in *; lia).
  rewrite wrap_int_small by lia. reflexivity.
Qed.

(** X22. For non-negative heights below the overflow bound the next
    superblock height is monotone in the height, moves by one period when
    the height does, and is at most one period above the height; applied
    to its own result it gives the following boundary. *)
Theorem GetNextSuperBlock_monotone_periodic (h1 h2 : Z) :
  0 <= h1 <= h2 -> h2 + 2 * 43200 <= MaxInt ->
  GetNextSuperBlock h1 <= GetNextSuperBlock h2
  /\ GetNextSuperBlock (h1 + 43200) = GetNextSuperBlock h1 + 43200
  /\ GetNextSuperBlock h1 - 43200 <= h1
  /\ GetNextSuperBlock (GetNextSuperBlock h1) = GetNextSuperBlock h1 + 43200.
Proof.
  intros Hh Hfit.
  pose proof (Z.mod_pos_bound h1 43200 ltac:(lia)) as Hm1.
  pose proof (Z.mod_pos_bound h2 43200 ltac:(lia)) as Hm2.
  pose proof (Z.div_mod h1 43200 ltac:(lia)) as Hd1.
  pose proof (Z.div_mod h2 43200 ltac:(lia)) as Hd2.
  rewrite (GetNextSuperBlock_value h1), (GetNextSuperBlock_value h2) by lia.
  split.
  - assert (h1 / 43200 <= h2 / 43200) by (apply Z.div_le_mono; lia). lia.
  - split.
    + rewrite GetNextSuperBlock_value.
      * replace (h1 + 43200) with (h1 + 1 * 43200) by lia.
        rewrite Z.mod_add by lia. lia.
      * lia.
      * replace (h1 + 43200) with (h1 + 1 * 43200) by lia.
        rewrite Z.mod_add by lia. lia.
    + split; [lia |].
      assert (Hmul : (h1 - h1 mod 43200 + 43200) mod 43200 = 0).
      { replace (h1 - h1 mod 43200 + 43200) with ((h1 / 43200 + 1) * 43200) by lia.
        apply Z.mod_mul. lia. }
      rewrite GetNextSuperBlock_value; rewrite ?Hmul; lia.
Qed.

(** X23. For a negative height the remainder of Go's [%] is not positive,
    so the result is still a multiple of the period but lies a full
    period or more above the height: unless the height is itself a
    multiple, a smaller multiple above the height exists (height -1 gives
    43200, not 0). *)
Theorem GetNextSuperBlock_negative_height (h : Z) :
  - MaxInt - 1 <= h < 0 ->
  (43200 | GetNextSuperBlock h)
  /\ h + 43200 <= GetNextSuperBlock h <= 43200
  /\ (h mod 43200 <> 0 ->
      (43200 | GetNextSuperBlock h - 43200) /\ h < GetNextSuperBlock h - 43200)
  /\ GetNextSuperBlock (-1) = 43200.
Proof.
  intros Hh. unfold GetNextSuperBlock, go_rem, nBlocksPerPeriod.
  pose proof (Z.rem_bound_pos_neg h 43200 ltac:(lia) ltac:(lia)) as Hr.
  pose proof (Z.quot_rem' h 43200) as Hq.
  rewrite MaxInt_value in Hh.
  rewrite (wrap_int_small (h - Z.rem h 43200)) by (rewrite MaxInt_value; lia).
  rewrite wrap_int_small by (rewrite MaxInt_value; lia).
  split; [exists (Z.quot h 43200 + 1); lia |].
  split; [lia |]. split; [| reflexivity].
  intros Hnz. split; [exists (Z.quot h 43200); lia |].
  assert (Z.rem h 43200 <> 0); [| lia].
  intros Hz. apply Hnz. apply Z.mod_divide; [lia |].
  exists (Z.quot h 43200). lia.
Qed.

(** ** Concrete runs of the further properties *)

Lemma TxFromMsgTx_every_input_decoded_witness :
  exists vin,
    bchain.Tx.Vin (TxFromMsgTx (fun _ => zeroHash) sample_parser sample_payment_tx false)
      !! 1%nat = Some vin
    /\ bchain.Vin.Sequence vin = 5
    /\ bchain.Vin.Vout vin = 3.
Proof.
  destruct (TxFromMsgTx_every_input_decoded (fun _ => zeroHash) sample_parser
              sample_payment_tx false 1%nat
              (wire.TxIn.mk sample_outpoint sample_valued_spend_script 5) eq_refl)
    as (vin & Hl & Hs & [(Hcb & _) | (_ & _ & _ & Hv & _)]).
  - discriminate Hcb.
  - exists vin. split; [exact Hl |]. split; [exact Hs | exact Hv].
Defined.

Lemma TxFromMsgTx_output_kept_witness :
  exists vout,
    bchain.Tx.Vout (TxFromMsgTx (fun _ => zeroHash) sample_parser sample_payment_tx false)
      !! 0%nat = Some vout
    /\ bchain.Vout.ValueSat vout = 7
    /\ bchain.ScriptPubKey.Hex (bchain.Vout.ScriptPubKey vout) = "76a9"%string.
Proof.
  destruct (TxFromMsgTx_output_kept (fun _ => zeroHash) sample_parser
              sample_payment_tx false 0%nat (wire.TxOut.mk 7 [x76; xa9]) eq_refl)
    as (vout & Hl & Hv & _ & _ & Hhex).
  exists vout. split; [exact Hl |]. split; [exact Hv |].
  destruct Hhex as [Hh _]; [discriminate | exact Hh].
Defined.

Lemma TxFromMsgTx_output_addresses_witness :
  exists vout,
    bchain.Tx.Vout (TxFromMsgTx (fun _ => zeroHash) sample_failing_parser
                      sample_payment_tx true) !! 0%nat = Some vout
    /\ bchain.ScriptPubKey.Addresses (bchain.Vout.ScriptPubKey vout) = ["DAddr"%string].
Proof.
  destruct (TxFromMsgTx_output_addresses (fun _ => zeroHash) sample_failing_parser
              sample_payment_tx true 0%nat (wire.TxOut.mk 7 [x76; xa9]) eq_refl)
    as (vout & Hl & _ & Ha).
  exists vout. split; [exact Hl |]. rewrite Ha; reflexivity.
Defined.

Lemma TxFromMsgTx_sentinel_reclassified_witness :
  exists vout,
    bchain.Tx.Vout (TxFromMsgTx (fun _ => zeroHash) sample_parser sample_payment_tx false)
      !! 1%nat = Some vout
    /\ outputScriptToAddresses sample_parser
         (DecodeString (bchain.ScriptPubKey.Hex (bchain.Vout.ScriptPubKey vout))).1
       = (["CoinStake TX"%string], false, None).
Proof.
  destruct (TxFromMsgTx_sentinel_reclassified (fun _ => zeroHash) sample_parser
              sample_payment_tx false 1%nat (wire.TxOut.mk 0 []) eq_refl eq_refl)
    as (vout & Hl & Hc).
  exists vout. split; [exact Hl | exact Hc].
Defined.

Lemma GetValueSatFromZerocoinSpend_value_range_witness :
  0 <= 5 * 10 ^ 8 <= (2 ^ 32 - 1) * 10 ^ 8
  /\ (10 ^ 8 | 5 * 10 ^ 8)
  /\ 5 * 10 ^ 8 < 2 ^ 63.
Proof.
  exact (GetValueSatFromZerocoinSpend_value_range
           [OP_ZEROCOINSPEND; x02; xaa; xbb; x05; x00; x00; x00] (5 * 10 ^ 8) eq_refl).
Defined.

Lemma GetValueSatFromZerocoinSpend_ignores_trailing_bytes_witness :
  GetValueSatFromZerocoinSpend
    ([OP_ZEROCOINSPEND; x02; xaa; xbb; x05; x00; x00; x00] ++ [xff; xff])
  = Ok (5 * 10 ^ 8).
Proof.
  exact (GetValueSatFromZerocoinSpend_ignores_trailing_bytes
           [OP_ZEROCOINSPEND; x02; xaa; xbb; x05; x00; x00; x00] [xff; xff]
           (5 * 10 ^ 8) eq_refl).
Defined.

Lemma GetAddrDescForUnknownInput_of_TxFromMsgTx_witness :
  GetAddrDescForUnknownInput
    (TxFromMsgTx (fun _ => zeroHash) sample_parser sample_payment_tx false) (Z.of_nat 0)
  = Returns [x51].
Proof.
  apply (GetAddrDescForUnknownInput_of_TxFromMsgTx (fun _ => zeroHash) sample_parser
           sample_payment_tx false 0%nat (wire.TxIn.mk sample_outpoint [x51] 0)).
  - reflexivity.
  - discriminate.
  - left. reflexivity.
Defined.

Lemma GetValueSatForUnknownInput_of_TxFromMsgTx_witness :
  exists value log,
    GetValueSatForUnknownInput
      (TxFromMsgTx (fun _ => zeroHash) sample_parser sample_payment_tx false) (Z.of_nat 1)
    = Returns (value, log)
    /\ value = 5 * 10 ^ 8.
Proof.
  destruct (GetValueSatForUnknownInput_of_TxFromMsgTx (fun _ => zeroHash) sample_parser
              sample_payment_tx false 1%nat
              (wire.TxIn.mk sample_outpoint sample_valued_spend_script 5) eq_refl)
    as (value & log & Hret & _ & Hsp).
  exists value, log. split; [exact Hret |].
  destruct Hsp as [Hok _]; [vm_compute; reflexivity |].
  apply Hok. vm_compute. reflexivity.
Defined.

Lemma GetValueSatForUnknownInput_value_range_witness :
  0 <= 5 * 10 ^ 8 <= (2 ^ 32 - 1) * 10 ^ 8.
Proof.
  apply (GetValueSatForUnknownInput_value_range
           (sample_json_tx "" (EncodeToString sample_valued_spend_script)) 0
           (5 * 10 ^ 8) []).
  vm_compute. reflexivity.
Defined.


Lemma ParseBlock_transactions_witness :
  exists block tx,
    ParseBlock (fun _ => zeroHash) sample_DecodeTransactions_payment sample_failing_parser
      sample_block_v7_payment = Ok block
    /\ length (bchain.Block.Txs block) = 1%nat
    /\ bchain.Block.Txs block !! 0%nat = Some tx
    /\ length (bchain.Tx.Vin tx) = 2%nat
    /\ length (bchain.Tx.Vout tx) = 2%nat
    /\ (forall i vout,
          bchain.Tx.Vout tx !! i = Some vout ->
          bchain.ScriptPubKey.Addresses (bchain.Vout.ScriptPubKey vout) = []).
Proof.
  assert (H7 : BlockHeader_Deserialize (NewReader sample_block_v7_payment)
               = (Ok (wire.BlockHeader.mk 7 (replicate 32 x00) (replicate 32 x00) 1 0 0),
                  mkReader sample_block_v7_payment 80)) by (vm_compute; reflexivity).
  destruct (ParseBlock_transactions (fun _ => zeroHash) sample_DecodeTransactions_payment
              sample_failing_parser sample_block_v7_payment _ _ [sample_payment_tx]
              (mkReader sample_block_v7_payment 81) H7)
    as (block & Hb & Hl & Htx); [vm_compute; reflexivity |].
  destruct (Htx 0%nat sample_payment_tx eq_refl) as (tx & Hk & _ & Hvin & Hvout & Haddr).
  exists block, tx. split; [exact Hb |]. split; [exact Hl |]. split; [exact Hk |].
  split; [exact Hvin |]. split; [exact Hvout | exact Haddr].
Defined.

Lemma GetChainParams_registers_once_witness :
  exists registeredNets' : gset Z,
    (GetChainParams "main" ∅).2 = registeredNets'
    /\ MainnetMagic ∈ registeredNets'
    /\ TestnetMagic ∈ registeredNets'
    /\ (GetChainParams "test" registeredNets').2 = registeredNets'.
Proof.
  destruct (GetChainParams_registers_once "main" "test" ∅ registry_ok_empty)
    as (reg' & H1 & H2 & _ & _ & Ht & H3).
  exists reg'. split; [exact H1 |]. split; [exact H2 |]. split; [| exact H3].
  apply Ht. left. apply not_elem_of_empty.
Defined.

Lemma Initialize_network_witness :
  exists registeredNets' : gset Z,
    Initialize nat sample_GetChainInfoAndInitializeMempool sample_NewBitcoinParser
      (mkRPCState None false "") 0%nat ∅
    = (Returns (None,
                mkRPCState
                  (Some (NewDogeCParser (sample_NewBitcoinParser TestNetParams).1
                           (sample_NewBitcoinParser TestNetParams).2))
                  true "testnet"),
       1%nat, registeredNets').
Proof.
  destruct (Initialize_network nat sample_GetChainInfoAndInitializeMempool
              sample_NewBitcoinParser (mkRPCState None false "") 0%nat 1%nat
              ∅ (Ok "test"%string) eq_refl) as [_ Hok].
  destruct (Hok "test"%string eq_refl registry_ok_empty) as ((reg' & Hrun) & _).
  exists reg'. exact Hrun.
Defined.

Lemma GetNextSuperBlock_monotone_periodic_witness :
  GetNextSuperBlock 0 <= GetNextSuperBlock 43199
  /\ GetNextSuperBlock (0 + 43200) = GetNextSuperBlock 0 + 43200
  /\ GetNextSuperBlock 0 - 43200 <= 0
  /\ GetNextSuperBlock (GetNextSuperBlock 0) = GetNextSuperBlock 0 + 43200.
Proof.
  apply (GetNextSuperBlock_monotone_periodic 0 43199).
  - lia.
  - vm_compute. discriminate.
Defined.

Lemma GetNextSuperBlock_negative_height_witness :
  (43200 | GetNextSuperBlock (-1))
  /\ -1 + 43200 <= GetNextSuperBlock (-1) <= 43200.
Proof.
  destruct (GetNextSuperBlock_negative_height (-1)) as (Hd & Hr & _).
  - split; [vm_compute; discriminate | lia].
  - split; [exact Hd | exact Hr].
Defined.
